(** * Soteria: topic authorization engine

    A shallow embedding of the topic manager ([internal/topics]) and of the
    ACL entry point ([internal/authenticator]) of Soteria, with the
    properties of its specification stated over the embedding.

    Go strings are byte strings: [string] (a list of [ascii]).  Go maps
    with string keys are [gmap string _]; reading [m[k]] on a missing key
    gives the zero value of the element type. *)

From Stdlib Require Import ZArith Ascii String List Bool Lia.
From stdpp Require Import base option list gmap strings fin_maps.

Local Open Scope string_scope.

(* ------------------------------------------------------------------ *)
(** ** Go's [strings] package, as far as the topic manager uses it     *)
(* ------------------------------------------------------------------ *)

Module strings.

(** [strings.HasPrefix(s, prefix)]. *)
Fixpoint HasPrefix (s prefix : string) : bool :=
  match prefix with
  | EmptyString => true
  | String p prefix' =>
      match s with
      | EmptyString => false
      | String c s' => if Ascii.eqb c p then HasPrefix s' prefix' else false
      end
  end.

(** [s[n:]] for [n <= len(s)]. *)
Fixpoint drop (n : nat) (s : string) : string :=
  match n with
  | O => s
  | S n' => match s with
            | EmptyString => EmptyString
            | String _ s' => drop n' s'
            end
  end.

(** [strings.TrimPrefix(s, prefix)]: [s] without the leading [prefix];
    [s] unchanged when it does not start with [prefix]. *)
Definition TrimPrefix (s prefix : string) : string :=
  if HasPrefix s prefix then drop (String.length prefix) s else s.

(** [strings.Split(s, sep)] for a one-byte separator: the substrings
    between the separators, [1 + count] of them. *)
Fixpoint Split (s : string) (sep : ascii) : list string :=
  match s with
  | EmptyString => [EmptyString]
  | String c s' =>
      if Ascii.eqb c sep then EmptyString :: Split s' sep
      else match Split s' sep with
           | [] => [String c EmptyString]
           | w :: ws => String c w :: ws
           end
  end.

End strings.

(* ------------------------------------------------------------------ *)
(** ** [pkg/acl]: access types                                         *)
(* ------------------------------------------------------------------ *)

Module acl.

(** Modelled from the spec: the package [pkg/acl] that declares
    [AccessType] and its constants.  The specification's data model gives
    the enumeration Publish, Subscribe, PublishSubscribe (wildcard) and
    Unset, the sentinel default, which is the value a Go map lookup yields
    for a missing key. *)
Inductive AccessType : Type :=
  | Unset
  | Sub
  | Pub
  | PubSub.

#[global] Instance AccessType_eq_dec : EqDecision AccessType.
Proof. solve_decision. Defined.

(** Go's [==] on access types. *)
Definition eqb (a b : AccessType) : bool := bool_decide (a = b).

End acl.

(* ------------------------------------------------------------------ *)
(** ** Go's [text/template], the fragment topic templates use          *)
(* ------------------------------------------------------------------ *)

Module template.

(** A parsed template is a sequence of nodes: literal text, and field
    actions [{{.a}}] or chains [{{.a.b}}]. *)
Inductive Node : Type :=
  | TextNode (text : string)
  | FieldNode (ident : string) (rest : list string).

Definition Template : Type := list Node.

(** Execution errors ("can't evaluate field X in type string"). *)
Inductive ExecError : Type :=
  | CantEvaluateField (field : string).

(** What is printed for a value that is not there. *)
Definition noValue : string := "<no value>".

(** Evaluating a field action on data of type [map[string]string], with
    the default [missingkey] option: the first identifier indexes the map.
    A key that is missing gives no value, and so does every further
    identifier applied to it: the action prints [<no value>] and is no
    error.  A key that is present gives its string; a further identifier
    applied to a string is an error, a string having no fields. *)
Definition evalField (data : gmap string string) (ident : string)
    (rest : list string) : string + ExecError :=
  match data !! ident with
  | None => inl noValue
  | Some v =>
      match rest with
      | [] => inl v
      | f :: _ => inr (CantEvaluateField f)
      end
  end.

(** [Execute] walks the nodes in order, appending to the writer, and
    stops at the first error; what was written before stays written. *)
Fixpoint walk (nodes : Template) (data : gmap string string)
    (writer : string) : string * option ExecError :=
  match nodes with
  | [] => (writer, None)
  | TextNode text :: nodes' => walk nodes' data (writer ++ text)
  | FieldNode ident rest :: nodes' =>
      match evalField data ident rest with
      | inl v => walk nodes' data (writer ++ v)
      | inr e => (writer, Some e)
      end
  end.

Definition Execute (t : Template) (writer : string)
    (data : gmap string string) : string * option ExecError :=
  walk t data writer.

End template.

(* ------------------------------------------------------------------ *)
(** ** [crypto/md5], [strconv.Itoa] and [fmt.Sprintf("%x", _)]         *)
(* ------------------------------------------------------------------ *)

Module md5.

Local Open Scope Z_scope.

(** 32-bit words are [Z] reduced modulo [2^32]. *)
Definition w32 (x : Z) : Z := x mod 4294967296.

Definition add32 (x y : Z) : Z := w32 (x + y).

Definition not32 (x : Z) : Z := 4294967295 - x.

Definition rotl32 (x c : Z) : Z :=
  w32 (Z.lor (Z.shiftl x c) (Z.shiftr x (32 - c))).

(** Per-round shift amounts. *)
Definition shifts : list Z :=
  [7; 12; 17; 22; 7; 12; 17; 22; 7; 12; 17; 22; 7; 12; 17; 22;
   5; 9; 14; 20; 5; 9; 14; 20; 5; 9; 14; 20; 5; 9; 14; 20;
   4; 11; 16; 23; 4; 11; 16; 23; 4; 11; 16; 23; 4; 11; 16; 23;
   6; 10; 15; 21; 6; 10; 15; 21; 6; 10; 15; 21; 6; 10; 15; 21].

(** The sine table: [floor (2^32 * abs (sin (i + 1)))]. *)
Definition sines : list Z :=
  [0xd76aa478; 0xe8c7b756; 0x242070db; 0xc1bdceee;
   0xf57c0faf; 0x4787c62a; 0xa8304613; 0xfd469501;
   0x698098d8; 0x8b44f7af; 0xffff5bb1; 0x895cd7be;
   0x6b901122; 0xfd987193; 0xa679438e; 0x49b40821;
   0xf61e2562; 0xc040b340; 0x265e5a51; 0xe9b6c7aa;
   0xd62f105d; 0x02441453; 0xd8a1e681; 0xe7d3fbc8;
   0x21e1cde6; 0xc33707d6; 0xf4d50d87; 0x455a14ed;
   0xa9e3e905; 0xfcefa3f8; 0x676f02d9; 0x8d2a4c8a;
   0xfffa3942; 0x8771f681; 0x6d9d6122; 0xfde5380c;
   0xa4beea44; 0x4bdecfa9; 0xf6bb4b60; 0xbebfbc70;
   0x289b7ec6; 0xeaa127fa; 0xd4ef3085; 0x04881d05;
   0xd9d4d039; 0xe6db99e5; 0x1fa27cf8; 0xc4ac5665;
   0xf4292244; 0x432aff97; 0xab9423a7; 0xfc93a039;
   0x655b59c3; 0x8f0ccc92; 0xffeff47d; 0x85845dd1;
   0x6fa87e4f; 0xfe2ce6e0; 0xa3014314; 0x4e0811a1;
   0xf7537e82; 0xbd3af235; 0x2ad7d2bb; 0xeb86d391].

Definition nthZ (l : list Z) (i : Z) : Z := nth (Z.to_nat i) l 0.

(** Little-endian bytes of a word, and back. *)
Definition le_bytes (n : nat) (x : Z) : list Z :=
  map (fun k => Z.land (Z.shiftr x (8 * Z.of_nat k)) 255) (seq 0 n).

Fixpoint le_word (bs : list Z) : Z :=
  match bs with
  | [] => 0
  | b :: bs' => b + 256 * le_word bs'
  end.

(** The message followed by the bit [1], zeros up to 56 modulo 64 bytes,
    and the bit length in 8 little-endian bytes. *)
Definition pad (msg : list Z) : list Z :=
  let len := Z.of_nat (List.length msg) in
  let zeros := Z.to_nat ((55 - len) mod 64) in
  msg ++ [128] ++ repeat 0 zeros ++ le_bytes 8 ((8 * len) mod 2 ^ 64).

(** Cuts a list into consecutive pieces of [n] elements; the fuel is the
    number of pieces at most. *)
Fixpoint chunks {A} (fuel n : nat) (l : list A) : list (list A) :=
  match fuel with
  | O => []
  | S fuel' =>
      match l with
      | [] => []
      | _ => firstn n l :: chunks fuel' n (skipn n l)
      end
  end.

Record state : Type := mkState { sa : Z; sb : Z; sc : Z; sd : Z }.

Definition init : state :=
  mkState 0x67452301 0xefcdab89 0x98badcfe 0x10325476.

(** One of the 64 operations on a block of 16 words. *)
Definition round (M : list Z) (st : state) (i : Z) : state :=
  let '(mkState A B C D) := st in
  let '(F, g) :=
    if i <? 16 then (Z.lor (Z.land B C) (Z.land (not32 B) D), i)
    else if i <? 32 then
      (Z.lor (Z.land D B) (Z.land (not32 D) C), (5 * i + 1) mod 16)
    else if i <? 48 then (Z.lxor B (Z.lxor C D), (3 * i + 5) mod 16)
    else (Z.lxor C (Z.lor B (not32 D)), (7 * i) mod 16) in
  let F' := add32 (add32 (add32 F A) (nthZ sines i)) (nthZ M g) in
  mkState D (add32 B (rotl32 F' (nthZ shifts i))) B C.

Definition block (st : state) (bytes : list Z) : state :=
  let M := map le_word (chunks 16 4 bytes) in
  let st' := fold_left (round M) (map Z.of_nat (seq 0 64)) st in
  mkState (add32 (sa st) (sa st')) (add32 (sb st) (sb st'))
          (add32 (sc st) (sc st')) (add32 (sd st) (sd st')).

(** [md5.Sum]: the 16 bytes of the digest. *)
Definition Sum (msg : list Z) : list Z :=
  let padded := pad msg in
  let st := fold_left block (chunks (List.length padded) 64 padded) init in
  le_bytes 4 (sa st) ++ le_bytes 4 (sb st)
    ++ le_bytes 4 (sc st) ++ le_bytes 4 (sd st).

End md5.

Module gofmt.

(** [[]byte(s)]. *)
Definition bytes_of_string (s : string) : list Z :=
  map (fun c => Z.of_nat (nat_of_ascii c)) (list_ascii_of_string s).

Definition hex_digit (d : Z) : ascii :=
  nth (Z.to_nat d) (list_ascii_of_string "0123456789abcdef") "0"%char.

(** [fmt.Sprintf("%x", bytes)]: two lower-case hexadecimal digits per
    byte. *)
Fixpoint hex (bytes : list Z) : string :=
  match bytes with
  | [] => EmptyString
  | b :: bytes' =>
      String (hex_digit (b / 16)) (String (hex_digit (b mod 16)) (hex bytes'))
  end.

Definition digit (d : nat) : ascii := ascii_of_nat (48 + d).

(** Decimal digits of a natural number, most significant first. *)
Fixpoint digits (fuel n : nat) (acc : string) : string :=
  match fuel with
  | O => acc
  | S fuel' =>
      let acc' := String (digit (n mod 10)) acc in
      if Nat.ltb n 10 then acc' else digits fuel' (n / 10) acc'
  end.

(** [strconv.Itoa]. *)
Definition Itoa (i : Z) : string :=
  let n := Z.to_nat (Z.abs i) in
  let ds := digits (S n) n EmptyString in
  if (i <? 0)%Z then String "-"%char ds else ds.

End gofmt.

(* ------------------------------------------------------------------ *)
(** ** [pkg/user] and the [snappids] library                           *)
(* ------------------------------------------------------------------ *)

Module user.

(** Modelled from the spec: the package [pkg/user], which declares the
    issuer of a token.  Issuers are the strings carried by the [iss]
    claim; the authenticator's tests pair the driver with key file [0],
    the passenger with [1] and third parties with [100]. *)
Definition Issuer : Type := string.

Definition Driver : Issuer := "0".
Definition Passenger : Issuer := "1".
Definition ThirdParty : Issuer := "100".

End user.

Module snappids.

Definition Audience : Type := Z.

Definition DriverAudience : Audience := 0%Z.
Definition PassengerAudience : Audience := 1%Z.

(** The hash-id codec of the [snappids] library, kept as its two
    operations; [None] stands for a returned error. *)
Record HashIDSManager : Type := mkHashIDSManager {
  DecodeHashID : string -> Audience -> option Z;
  EncodeHashID : Z -> Audience -> option string;
}.

End snappids.

(* ------------------------------------------------------------------ *)
(** ** Results of functions that can panic                             *)
(* ------------------------------------------------------------------ *)

(** A Go run-time panic: indexing a slice of length [len] at [index]. *)
Inductive panic : Type :=
  | IndexOutOfRange (index len : nat).

(** What a call does: it returns a value, or it panics. *)
Inductive outcome (A : Type) : Type :=
  | Returns (a : A)
  | Panics (p : panic).

Arguments Returns {A} a.
Arguments Panics {A} p.

(** [s[i]] on a slice. *)
Definition index {A} (s : list A) (i : nat) : outcome A :=
  match s !! i with
  | Some x => Returns x
  | None => Panics (IndexOutOfRange i (List.length s))
  end.

Definition bind {A B} (m : outcome A) (f : A -> outcome B) : outcome B :=
  match m with
  | Returns a => f a
  | Panics p => Panics p
  end.

Notation "x <~ m ;; k" := (bind m (fun x => k))
  (at level 100, m at next level, right associativity).

(* ------------------------------------------------------------------ *)
(** ** [internal/topics]: topic definitions                            *)
(* ------------------------------------------------------------------ *)

Module topics.

(** [HashType]: topic hashID type. *)
Inductive HashType : Type :=
  | HashID
  | MD5.

(** [Template]: the runtime form of a topic.  [Regex] is the compiled
    regular expression the manager matches with, kept as its
    [MatchString] function. *)
Record Template : Type := mkTemplate {
  Type_ : string;
  Template_ : template.Template;
  Regex : string -> bool;
  HashType_ : HashType;
  Accesses : gmap string acl.AccessType;
}.

(** [Template.Parse]: renders the template on the fields; the empty
    string when execution fails. *)
Definition Parse (t : Template) (fields : gmap string string) : string :=
  let writer := EmptyString in
  match template.Execute (Template_ t) writer fields with
  | (_, Some _) => EmptyString
  | (written, None) => written
  end.

(** [Template.HasAccess]: check if user has access on topic. *)
Definition HasAccess (t : Template) (audience : string)
    (accessType : acl.AccessType) : bool :=
  let access := default acl.Unset (Accesses t !! audience) in
  acl.eqb access acl.PubSub || acl.eqb access accessType.

(** Topic types. *)
Definition CabEvent : string := "cab_event".
Definition DriverLocation : string := "driver_location".
Definition PassengerLocation : string := "passenger_location".
Definition SuperappEvent : string := "superapp_event".
Definition BoxEvent : string := "box_event".
Definition SharedLocation : string := "shared_location".
Definition Chat : string := "chat".
Definition GeneralCallEntry : string := "general_call_entry".
Definition NodeCallEntry : string := "node_call_entry".
Definition CallOutgoing : string := "call_outgoing".

Definition Driver : string := "driver".
Definition Passenger : string := "passenger".

(** [EmqCabHashPrefix] is the default prefix for hashing part of cab
    topic. *)
Definition EmqCabHashPrefix : string := "emqch".

Inductive error : Type :=
  | ErrDecodeHashID.

(** [Manager]: a manager as [NewTopicManager] leaves it, its templates
    in the order of the topic list. *)
Record Manager : Type := mkManager {
  HashIDSManager : snappids.HashIDSManager;
  Company : string;
  TopicTemplates : list Template;
}.

(** [issuerToAudience] returns corresponding audience in snappids form. *)
Definition issuerToAudience (issuer : user.Issuer) : snappids.Audience :=
  if String.eqb issuer user.Passenger then snappids.PassengerAudience
  else if String.eqb issuer user.Driver then snappids.DriverAudience
  else (-1)%Z.

(** [issuerToAudienceStr] returns corresponding audience in string
    form. *)
Definition issuerToAudienceStr (issuer : user.Issuer) : string :=
  if String.eqb issuer user.Passenger then Passenger
  else if String.eqb issuer user.Driver then Driver
  else EmptyString.

Definition peerOfAudience (audience : string) : string :=
  if String.eqb audience Driver then Passenger
  else if String.eqb audience Passenger then Driver
  else EmptyString.

(** The secondary hash of a numeric id: the hexadecimal MD5 digest of
    the prefix, a dash and the decimal id. *)
Definition md5HashID (id : Z) : string :=
  gofmt.hex (md5.Sum (gofmt.bytes_of_string
    (EmqCabHashPrefix ++ "-" ++ gofmt.Itoa id))).

(** [Manager.getHashID]. *)
Definition getHashID (t : Manager) (topicType sub : string)
    (issuer : user.Issuer) : string + error :=
  if String.eqb topicType CabEvent then
    match snappids.DecodeHashID (HashIDSManager t) sub
            (issuerToAudience issuer) with
    | None => inr ErrDecodeHashID
    | Some id => inl (md5HashID id)
    end
  else inl sub.

(** The loop of [GetTopicTemplate]: the first template, in declaration
    order, whose regular expression matches. *)
Fixpoint firstMatch (templates : list Template) (topic : string)
    : option Template :=
  match templates with
  | [] => None
  | each :: rest =>
      if Regex each topic then Some each else firstMatch rest topic
  end.

(** [Manager.GetTopicTemplate]. *)
Definition GetTopicTemplate (t : Manager) (input : string)
    : option Template :=
  let topic := strings.TrimPrefix input (Company t) in
  firstMatch (TopicTemplates t) topic.

(** The loop of [GetTopicType]. *)
Fixpoint firstMatchType (templates : list Template) (topic : string)
    : string :=
  match templates with
  | [] => EmptyString
  | each :: rest =>
      if Regex each topic then Type_ each else firstMatchType rest topic
  end.

(** [Manager.GetTopicType] finds topic type based on regexes. *)
Definition GetTopicType (t : Manager) (input : string) : string :=
  let topic := strings.TrimPrefix input (Company t) in
  firstMatchType (TopicTemplates t) topic.

(** [Manager.IsTopicValid] returns true if it finds a topic type for the
    given topic. *)
Definition IsTopicValid (t : Manager) (topic : string) : bool :=
  negb (Nat.eqb (String.length (GetTopicType t topic)) 0).

(** The fields [ValidateTopicBySender] fills in before the hash id. *)
Definition senderFields (t : Manager) (issuer : user.Issuer)
    : gmap string string :=
  let fields : gmap string string := ∅ in
  let audience := issuerToAudienceStr issuer in
  let fields := <["audience" := audience]> fields in
  let fields := <["company" := Company t]> fields in
  <["peer" := peerOfAudience (default EmptyString (fields !! "audience"))]>
    fields.

(** The rest of the field set: the hash id and, for a node call entry,
    the node, which is the fifth segment of the topic. *)
Definition topicFields (t : Manager) (topicTemplate : Template)
    (topic : string) (issuer : user.Issuer) (hashID : string)
    : outcome (gmap string string) :=
  let fields := senderFields t issuer in
  let fields := <["hashId" := hashID]> fields in
  if String.eqb (Type_ topicTemplate) NodeCallEntry then
    node <~ index (strings.Split topic "/"%char) 4 ;;
    Returns (<["node" := node]> fields)
  else Returns fields.

(** [Manager.ValidateTopicBySender]. *)
Definition ValidateTopicBySender (t : Manager) (topic : string)
    (issuer : user.Issuer) (sub : string) : outcome bool :=
  match GetTopicTemplate t topic with
  | None => Returns false
  | Some topicTemplate =>
      match getHashID t (Type_ topicTemplate) sub issuer with
      | inr _ => Returns false
      | inl hashID =>
          fields <~ topicFields t topicTemplate topic issuer hashID ;;
          let parsedTopic := Parse topicTemplate fields in
          Returns (String.eqb parsedTopic topic)
      end
  end.

(** The identity token as the specification words it: selected by the
    declared hash type of the pattern, the decoded and re-encoded hash id
    for [HashID] and the secondary hash of the decoded id for [MD5].
    It is compared with [getHashID], which is what the manager runs. *)
Definition tokenByHashKind (t : Manager) (hashType : HashType)
    (sub : string) (issuer : user.Issuer) : string + error :=
  match snappids.DecodeHashID (HashIDSManager t) sub
          (issuerToAudience issuer) with
  | None => inr ErrDecodeHashID
  | Some id =>
      match hashType with
      | MD5 => inl (md5HashID id)
      | HashID =>
          match snappids.EncodeHashID (HashIDSManager t) id
                  (issuerToAudience issuer) with
          | Some token => inl token
          | None => inr ErrDecodeHashID
          end
      end
  end.

End topics.

(* ------------------------------------------------------------------ *)
(** ** [internal/authenticator]: the ACL entry point                   *)
(* ------------------------------------------------------------------ *)

Module jwt.

(** A claim value, of Go type [any]: [nil], a string, or another JSON
    value, which is kept as the text [fmt.Sprintf("%v", _)] prints. *)
Inductive any : Type :=
  | Nil
  | Str (s : string)
  | Other (printed : string).

(** [v == nil]. *)
Definition is_nil (v : any) : bool :=
  match v with
  | Nil => true
  | _ => false
  end.

(** [fmt.Sprintf("%v", v)]. *)
Definition sprint (v : any) : string :=
  match v with
  | Nil => "<nil>"
  | Str s => s
  | Other printed => printed
  end.

(** [s, _ := v.(string)]. *)
Definition as_string (v : any) : string :=
  match v with
  | Str s => s
  | _ => EmptyString
  end.

(** [claims[name]]: the zero value of [any] is [nil]. *)
Definition claim (claims : gmap string any) (name : string) : any :=
  default Nil (claims !! name).

End jwt.

Module authenticator.

Record JWT : Type := mkJWT {
  IssName : string;
  SubName : string;
}.

(** [AutoAuthenticator] is responsible for Acl/Auth/Token of users.
    [Parser] is the token parser, kept as its [ParseUnverified]: the
    claims of the token, or [None] for an error. *)
Record AutoAuthenticator : Type := mkAutoAuthenticator {
  AllowedAccessTypes : list acl.AccessType;
  TopicManager : topics.Manager;
  Company : string;
  JWTConfig : JWT;
  Parser : string -> option (gmap string jwt.any);
}.

Inductive error : Type :=
  | ErrInvalidAccessType
  | ErrInvalidClaims
  | ErrIssNotFound
  | ErrSubNotFound
  | InvalidTopicError (Topic : string)
  | TopicNotAllowedError (Issuer Sub : string) (AccessType : acl.AccessType)
      (Topic TopicType : string).

(** The loop of [ValidateAccessType]. *)
Fixpoint inAllowed (allowed : list acl.AccessType)
    (accessType : acl.AccessType) : bool :=
  match allowed with
  | [] => false
  | allowedAccessType :: rest =>
      if acl.eqb allowedAccessType accessType then true
      else inAllowed rest accessType
  end.

(** [AutoAuthenticator.ValidateAccessType]. *)
Definition ValidateAccessType (a : AutoAuthenticator)
    (accessType : acl.AccessType) : bool :=
  inAllowed (AllowedAccessTypes a) accessType.

Section ACL.

(** [Manager.ParseTopic] is not part of the sources at hand: the ACL
    decision is stated for any function in its place; [None] is its
    [nil] result. *)
Variable ParseTopic :
  topics.Manager -> string -> string -> string -> gmap string jwt.any ->
  option topics.Template.

(** [AutoAuthenticator.ACL] check a user access to a topic. *)
Definition ACL (a : AutoAuthenticator) (accessType : acl.AccessType)
    (tokenString topic : string) : bool * option error :=
  if negb (ValidateAccessType a accessType) then
    (false, Some ErrInvalidAccessType)
  else
    match Parser a tokenString with
    | None => (false, Some ErrInvalidClaims)
    | Some claims =>
        if jwt.is_nil (jwt.claim claims (IssName (JWTConfig a))) then
          (false, Some ErrIssNotFound)
        else
          let issuer :=
            jwt.sprint (jwt.claim claims (IssName (JWTConfig a))) in
          if jwt.is_nil (jwt.claim claims (SubName (JWTConfig a))) then
            (false, Some ErrSubNotFound)
          else
            let sub :=
              jwt.as_string (jwt.claim claims (SubName (JWTConfig a))) in
            match ParseTopic (TopicManager a) topic issuer sub claims with
            | None => (false, Some (InvalidTopicError topic))
            | Some topicTemplate =>
                if negb (topics.HasAccess topicTemplate issuer accessType)
                then
                  (false,
                   Some (TopicNotAllowedError issuer sub accessType topic
                           (topics.Type_ topicTemplate)))
                else (true, None)
            end
    end.

End ACL.

(** Modelled from the spec: [Manager.ParseTopic], which is not part of
    the sources at hand, as the registry lookup of the specification: the
    same scan as classification, returning the compiled entry. *)
Definition Lookup (m : topics.Manager) (topic issuer sub : string)
    (claims : gmap string jwt.any) : option topics.Template :=
  topics.GetTopicTemplate m topic.

End authenticator.

(* ------------------------------------------------------------------ *)
(** ** A small deployment, for the concrete instances below            *)
(* ------------------------------------------------------------------ *)

Module deployment.

Import topics.

(** The [MatchString] of the regular expression [^p], for a literal
    [p] without metacharacters. *)
Definition startsWith (p : string) : string -> bool :=
  fun s => strings.HasPrefix s p.

(** A codec that knows one driver: the hash id [d123] of the id 123. *)
Definition codec : snappids.HashIDSManager :=
  snappids.mkHashIDSManager
    (fun sub aud =>
       if String.eqb sub "d123" && Z.eqb aud snappids.DriverAudience
       then Some 123%Z else None)
    (fun id aud =>
       if Z.eqb id 123 && Z.eqb aud snappids.DriverAudience
       then Some "d123" else None).

Definition field (name : string) : template.Node :=
  template.FieldNode name [].

(** [{{.company}}/driver/{{.hashId}}/location], matched by
    [^/driver/]. *)
Definition driverLocation : Template :=
  mkTemplate DriverLocation
    [field "company"; template.TextNode "/driver/"; field "hashId";
     template.TextNode "/location"]
    (startsWith "/driver/") MD5 {[ "0" := acl.Pub ]}.

(** [{{.company}}/{{.audience}}/{{.hashId}}/call/{{.node}}/send],
    matched by [^/driver/]. *)
Definition nodeCallEntry : Template :=
  mkTemplate NodeCallEntry
    [field "company"; template.TextNode "/"; field "audience";
     template.TextNode "/"; field "hashId"; template.TextNode "/call/";
     field "node"; template.TextNode "/send"]
    (startsWith "/driver/") HashID {[ "0" := acl.PubSub ]}.

(** [{{.company}}/passenger/{{.hashId}}/location], matched by
    [^/passenger/]. *)
Definition passengerLocation : Template :=
  mkTemplate PassengerLocation
    [field "company"; template.TextNode "/passenger/"; field "hashId";
     template.TextNode "/location"]
    (startsWith "/passenger/") MD5 {[ "1" := acl.Pub ]}.

(** [{{.audience}}-event-{{.hashId}}], matched by [^driver-event-]:
    the cab event topic of the authenticator's tests. *)
Definition cabEvent : Template :=
  mkTemplate CabEvent
    [field "audience"; template.TextNode "-event-"; field "hashId"]
    (startsWith "driver-event-") MD5 {[ "0" := acl.Sub ]}.

(** [{{.company}}/{{.audience}}/chat], matched by [^/]. *)
Definition chat : Template :=
  mkTemplate Chat
    [field "company"; template.TextNode "/"; field "audience";
     template.TextNode "/chat"]
    (startsWith "/") HashID {[ "0" := acl.Sub; "1" := acl.Sub ]}.

(** [{{.company}}/{{.company.name}}]: the second action asks a string
    for a field. *)
Definition broken : Template :=
  mkTemplate SuperappEvent
    [field "company"; template.TextNode "/";
     template.FieldNode "company" ["name"]]
    (startsWith "/") HashID ∅.

(** [{{.company}}/box/{{.hashId}}], matched by [^/parcel/]: the regular
    expression does not accept what the template renders. *)
Definition boxEvent : Template :=
  mkTemplate BoxEvent
    [field "company"; template.TextNode "/box/"; field "hashId"]
    (startsWith "/parcel/") HashID {[ "0" := acl.Sub ]}.

(** A codec in which two hash ids decode to the id 123. *)
Definition twoTokenCodec : snappids.HashIDSManager :=
  snappids.mkHashIDSManager
    (fun sub aud =>
       if (String.eqb sub "d123" || String.eqb sub "D123")
          && Z.eqb aud snappids.DriverAudience
       then Some 123%Z else None)
    (fun id aud =>
       if Z.eqb id 123 && Z.eqb aud snappids.DriverAudience
       then Some "d123" else None).

Definition manager (templates : list Template) : Manager :=
  mkManager codec "snapp" templates.

(** The fields of the driver 123 for a location topic. *)
Definition driverFields : gmap string string :=
  {[ "company" := "snapp"; "hashId" := "d123" ]}.

Definition claimsOf (iss sub : jwt.any) : gmap string jwt.any :=
  {[ "iss" := iss; "sub" := sub ]}.

(** A parser that reads the two tokens of the examples. *)
Definition parser (tokenString : string) : option (gmap string jwt.any) :=
  if String.eqb tokenString "driver-token"
  then Some (claimsOf (jwt.Other "0") (jwt.Str "d123"))
  else if String.eqb tokenString "no-subject-token"
  then Some {[ "iss" := jwt.Other "0" ]}
  else None.

Definition autoAuthenticator : authenticator.AutoAuthenticator :=
  authenticator.mkAutoAuthenticator [acl.Pub; acl.Sub]
    (manager [driverLocation]) "snapp"
    (authenticator.mkJWT "iss" "sub") parser.

End deployment.

(* ------------------------------------------------------------------ *)
(** ** More of Go's [strings], for the configuration loader            *)
(* ------------------------------------------------------------------ *)

Module gostrings.

(** [strings.Count(s, sep)] for a one-byte separator. *)
Fixpoint Count (s : string) (sep : ascii) : nat :=
  match s with
  | EmptyString => 0
  | String c s' => (if Ascii.eqb c sep then 1 else 0) + Count s' sep
  end.






(** Whether a byte occurs in a string. *)
Fixpoint contains (s : string) (c : ascii) : bool :=
  match s with
  | EmptyString => false
  | String c' s' => Ascii.eqb c' c || contains s' c
  end.

(** Whether some byte of the string satisfies [p]. *)
Fixpoint any (p : ascii -> bool) (s : string) : bool :=
  match s with
  | EmptyString => false
  | String c s' => p c || any p s'
  end.

(** A lower-case hexadecimal digit. *)
Definition isHexDigit (c : ascii) : bool :=
  contains "0123456789abcdef" c.

End gostrings.

(* ------------------------------------------------------------------ *)
(** ** [internal/config]: names of environment variables               *)
(* ------------------------------------------------------------------ *)

Module config.



(** [BlackListUserLogging], as the black list checker reads it. *)
Record BlackListUserLogging : Type := mkBlackListUserLogging {
  UserIDs : list Z;
  Iss : Z;
}.

End config.

(* ------------------------------------------------------------------ *)
(** ** [internal/authenticator]: the black list checker                *)
(* ------------------------------------------------------------------ *)

Module blacklist.

Record autoBlackListChecker : Type := mkAutoBlackListChecker {
  users : gmap Z unit;
  iss : Z;
}.

(** [NewAutoBlackListChecker]. *)
Definition NewAutoBlackListChecker (cfg : config.BlackListUserLogging)
    : autoBlackListChecker :=
  let users :=
    fold_left (fun (users : gmap Z unit) userID => <[userID := tt]> users)
      (config.UserIDs cfg) ∅ in
  mkAutoBlackListChecker users (config.Iss cfg).

(** [autoBlackListChecker.isBlackList]. *)
Definition isBlackList (a : autoBlackListChecker) (userID iss : Z) : bool :=
  if negb (Z.eqb iss (blacklist.iss a)) then false
  else
    match users a !! userID with
    | Some _ => true
    | None => false
    end.

End blacklist.

(* ------------------------------------------------------------------ *)
(** ** Rendering without failure                                       *)
(* ------------------------------------------------------------------ *)

Module rendering.

(** A node that executes without error on the data: text, a field
    action with one identifier, or a chain on a key that is missing. *)
Definition succeeds (data : gmap string string) (n : template.Node) : bool :=
  match n with
  | template.TextNode _ => true
  | template.FieldNode _ [] => true
  | template.FieldNode ident (_ :: _) =>
      match data !! ident with
      | None => true
      | Some _ => false
      end
  end.

(** What a node that succeeds writes. *)
Definition piece (data : gmap string string) (n : template.Node) : string :=
  match n with
  | template.TextNode text => text
  | template.FieldNode ident _ =>
      match data !! ident with
      | Some v => v
      | None => template.noValue
      end
  end.

(** What nodes that succeed write, one after the other. *)
Fixpoint render (nodes : template.Template) (data : gmap string string)
    : string :=
  match nodes with
  | [] => EmptyString
  | n :: nodes' => piece data n ++ render nodes' data
  end.

(** How often the action [{{.name}}] occurs. *)
Fixpoint occurrences (name : string) (nodes : template.Template) : nat :=
  match nodes with
  | [] => 0
  | template.FieldNode ident [] :: nodes' =>
      (if String.eqb ident name then 1 else 0) + occurrences name nodes'
  | _ :: nodes' => occurrences name nodes'
  end.

End rendering.

(** Reads a field of a map built by inserting under literal keys. *)
Ltac lookup_field :=
  repeat first
    [ rewrite lookup_insert_ne by discriminate
    | rewrite lookup_insert_eq
    | rewrite lookup_empty ];
  reflexivity.

(* ------------------------------------------------------------------ *)
(** * Properties                                                       *)
(* ------------------------------------------------------------------ *)

(** ** The model of [md5.Sum] against known digests *)

Example md5_empty :
  gofmt.hex (md5.Sum []) = "d41d8cd98f00b204e9800998ecf8427e".
Proof. vm_compute. reflexivity. Qed.

Example md5_abc :
  gofmt.hex (md5.Sum (gofmt.bytes_of_string "abc"))
  = "900150983cd24fb0d6963f7d28e17f72".
Proof. vm_compute. reflexivity. Qed.

(** The digest the authenticator's test expects in the cab event topic of
    the driver 123. *)
Example md5HashID_123 :
  topics.md5HashID 123 = "152384980615c2bd16143cff29038b67".
Proof. vm_compute. reflexivity. Qed.

(** ** Access decision *)

(** Go's [==] on access types decides equality. *)
Lemma acl_eqb_eq (a b : acl.AccessType) : acl.eqb a b = true <-> a = b.
Proof. unfold acl.eqb. rewrite bool_decide_eq_true. reflexivity. Qed.

Section HasAccess.

Import topics.

Variable t : Template.
Variable audience : string.

(** The value the lookup [t.Accesses[audience]] yields. *)
Let declared : acl.AccessType := default acl.Unset (Accesses t !! audience).

Lemma HasAccess_unfold accessType :
  HasAccess t audience accessType
  = acl.eqb declared acl.PubSub || acl.eqb declared accessType.
Proof. reflexivity. Qed.

(** C1, as amended.  For an audience with no entry in [Accesses], the
    lookup yields [Unset]: [HasAccess] denies every requested access type
    other than [Unset], [PubSub] included, and it grants exactly the
    request [Unset], which equals the value looked up. *)
Theorem HasAccess_absent_audience (accessType : acl.AccessType) :
  Accesses t !! audience = None ->
  (accessType <> acl.Unset -> HasAccess t audience accessType = false)
  /\ (HasAccess t audience accessType = true <-> accessType = acl.Unset).
Proof.
  intros Habsent.
  rewrite HasAccess_unfold. subst declared. rewrite Habsent. simpl.
  destruct accessType; split; intros; try reflexivity; try congruence;
    split; intros; try reflexivity; try congruence; discriminate.
Qed.

(** C2.  [HasAccess] grants if and only if the access looked up for the
    audience is [PubSub] or is the requested access type.  In particular a
    declared [PubSub] grants a [Pub] and a [Sub] request, and a declared
    [Pub] denies a [Sub] request. *)
Theorem HasAccess_iff_wildcard_or_exact (accessType : acl.AccessType) :
  (HasAccess t audience accessType = true
   <-> (default acl.Unset (Accesses t !! audience) = acl.PubSub
        \/ default acl.Unset (Accesses t !! audience) = accessType))
  /\ (Accesses t !! audience = Some acl.PubSub ->
      HasAccess t audience acl.Pub = true
      /\ HasAccess t audience acl.Sub = true)
  /\ (Accesses t !! audience = Some acl.Pub ->
      HasAccess t audience acl.Sub = false).
Proof.
  split; [|split].
  - rewrite HasAccess_unfold. subst declared.
    rewrite orb_true_iff, !acl_eqb_eq. reflexivity.
  - intros H. rewrite !HasAccess_unfold. subst declared. rewrite H.
    split; reflexivity.
  - intros H. rewrite HasAccess_unfold. subst declared. rewrite H.
    reflexivity.
Qed.

End HasAccess.

(** C1, the claim as stated fails: with no entry for the audience, the
    request [Unset] is granted. *)
Lemma HasAccess_absent_audience_Unset_granted :
  topics.Accesses deployment.driverLocation !! "1" = None
  /\ topics.HasAccess deployment.driverLocation "1" acl.Unset = true.
Proof. split; vm_compute; reflexivity. Qed.

Lemma HasAccess_absent_audience_witness :
  topics.Accesses deployment.driverLocation !! "1" = None
  /\ topics.HasAccess deployment.driverLocation "1" acl.PubSub = false.
Proof.
  assert (H : topics.Accesses deployment.driverLocation !! "1" = None)
    by (vm_compute; reflexivity).
  split; [exact H|].
  apply (HasAccess_absent_audience deployment.driverLocation "1" acl.PubSub H).
  discriminate.
Defined.

Lemma HasAccess_iff_wildcard_or_exact_witness :
  topics.HasAccess deployment.nodeCallEntry "0" acl.Pub = true
  /\ topics.HasAccess deployment.nodeCallEntry "0" acl.Sub = true
  /\ topics.HasAccess deployment.driverLocation "0" acl.Sub = false.
Proof.
  split; [|split].
  - apply (HasAccess_iff_wildcard_or_exact deployment.nodeCallEntry "0"
             acl.Pub).
    vm_compute; reflexivity.
  - apply (HasAccess_iff_wildcard_or_exact deployment.nodeCallEntry "0"
             acl.Pub).
    vm_compute; reflexivity.
  - apply (HasAccess_iff_wildcard_or_exact deployment.driverLocation "0"
             acl.Pub).
    vm_compute; reflexivity.
Defined.

(** ** Classification *)

Section Classification.

Import topics.

(** The two loops agree: the type returned is that of the template
    returned, the empty string if there is none. *)
Lemma firstMatchType_firstMatch (templates : list Template) topic :
  firstMatchType templates topic
  = match firstMatch templates topic with
    | Some each => Type_ each
    | None => EmptyString
    end.
Proof.
  induction templates as [|each rest IH]; simpl; [reflexivity|].
  destruct (Regex each topic); [reflexivity|exact IH].
Qed.

(** The scan stops at the first template, in declaration order, whose
    regular expression matches. *)
Lemma firstMatch_earliest (templates : list Template) topic :
  forall (i : nat) (each : Template),
    templates !! i = Some each ->
    Regex each topic = true ->
    (forall (j : nat) (other : Template),
        j < i -> templates !! j = Some other -> Regex other topic = false) ->
    firstMatch templates topic = Some each.
Proof.
  induction templates as [|first rest IH]; intros i each Hi Hm Hbefore.
  - discriminate.
  - destruct i as [|i]; simpl in *.
    + injection Hi as ->. rewrite Hm. reflexivity.
    + rewrite (Hbefore 0 first); [|lia|reflexivity].
      apply (IH i each Hi Hm).
      intros j other Hj Hother. apply (Hbefore (S j) other); [lia|exact Hother].
Qed.

(** When no regular expression matches, there is no result. *)
Lemma firstMatch_none (templates : list Template) topic :
  Forall (fun each => Regex each topic = false) templates ->
  firstMatch templates topic = None.
Proof.
  induction 1 as [|each rest Hm _ IH]; simpl; [reflexivity|].
  rewrite Hm. exact IH.
Qed.

Lemma firstMatch_Some (templates : list Template) topic each :
  firstMatch templates topic = Some each ->
  exists i,
    templates !! i = Some each
    /\ Regex each topic = true
    /\ forall j other,
         j < i -> templates !! j = Some other -> Regex other topic = false.
Proof.
  induction templates as [|first rest IH]; simpl; [discriminate|].
  destruct (Regex first topic) eqn:Hm.
  - intros H. injection H as <-. exists 0. repeat split; [exact Hm|].
    intros j other Hj. lia.
  - intros H. destruct (IH H) as (i & Hi & Hmi & Hbefore).
    exists (S i). repeat split; [exact Hi|exact Hmi|].
    intros [|j] other Hj Hother; simpl in Hother.
    + injection Hother as <-. exact Hm.
    + apply (Hbefore j other); [lia|exact Hother].
Qed.

(** Templates with different types sit at different positions. *)
Lemma lookup_same_type (templates : list Template) :
  NoDup (map Type_ templates) ->
  forall (i j : nat) (P Q : Template),
    templates !! i = Some P -> templates !! j = Some Q ->
    Type_ P = Type_ Q -> i = j.
Proof.
  induction templates as [|first rest IH]; intros Hnd i j P Q Hi Hj Hty;
    [discriminate|].
  simpl in Hnd. apply NoDup_cons in Hnd as [Hnotin Hnd].
  assert (Hin : forall k R, rest !! k = Some R -> In (Type_ R) (map Type_ rest)).
  { intros k R Hk. apply in_map. apply list_elem_of_In.
    apply (list_elem_of_lookup_2 rest k R Hk). }
  destruct i as [|i], j as [|j]; simpl in Hi, Hj.
  - reflexivity.
  - injection Hi as <-. exfalso. apply Hnotin. apply list_elem_of_In.
    rewrite Hty. exact (Hin j Q Hj).
  - injection Hj as <-. exfalso. apply Hnotin. apply list_elem_of_In.
    rewrite <- Hty. exact (Hin i P Hi).
  - f_equal. exact (IH Hnd i j P Q Hi Hj Hty).
Qed.

(** C5.  First match wins: when the regular expression of the template
    declared at position [i] accepts the topic (company prefix trimmed)
    and no template declared before it does, then, whatever templates
    declared after it accept the topic too, [GetTopicType] returns its
    type and [GetTopicTemplate] returns it.  Both are functions of the
    manager and the topic, so every call returns the same. *)
Theorem classification_first_match_wins (t : Manager) (input : string)
    (i : nat) (each : Template) :
  TopicTemplates t !! i = Some each ->
  Regex each (strings.TrimPrefix input (Company t)) = true ->
  (forall (j : nat) (other : Template),
      j < i -> TopicTemplates t !! j = Some other ->
      Regex other (strings.TrimPrefix input (Company t)) = false) ->
  GetTopicType t input = Type_ each
  /\ GetTopicTemplate t input = Some each.
Proof.
  intros Hi Hm Hbefore.
  assert (H : GetTopicTemplate t input = Some each)
    by (apply (firstMatch_earliest _ _ i); assumption).
  split; [|exact H].
  unfold GetTopicType. rewrite firstMatchType_firstMatch.
  unfold GetTopicTemplate in H. rewrite H. reflexivity.
Qed.

(** C8, as amended.  The type of a rendered topic is the type of the
    pattern that rendered it whenever the regular expression of that
    pattern accepts the rendered string (company prefix trimmed) and no
    pattern declared before it does; in a registry whose types are
    distinct, and for a pattern whose type is not empty, the two
    conditions are also necessary.  Nothing in the code makes them hold:
    the regular expression and the template of a pattern are independent
    of each other. *)
Theorem classify_rendered_topic (t : Manager) (i : nat) (P : Template)
    (F : gmap string string) :
  TopicTemplates t !! i = Some P ->
  (Regex P (strings.TrimPrefix (Parse P F) (Company t)) = true ->
   (forall (j : nat) (other : Template),
       j < i -> TopicTemplates t !! j = Some other ->
       Regex other (strings.TrimPrefix (Parse P F) (Company t)) = false) ->
   GetTopicType t (Parse P F) = Type_ P)
  /\ (NoDup (map Type_ (TopicTemplates t)) ->
      Type_ P <> EmptyString ->
      GetTopicType t (Parse P F) = Type_ P ->
      Regex P (strings.TrimPrefix (Parse P F) (Company t)) = true
      /\ forall (j : nat) (other : Template),
           j < i -> TopicTemplates t !! j = Some other ->
           Regex other (strings.TrimPrefix (Parse P F) (Company t))
           = false).
Proof.
  intros Hi. split.
  - intros Hm Hbefore.
    unfold GetTopicType. rewrite firstMatchType_firstMatch.
    rewrite (firstMatch_earliest _ _ i P Hi Hm Hbefore). reflexivity.
  - intros Hnd Hne Hty.
    unfold GetTopicType in Hty. rewrite firstMatchType_firstMatch in Hty.
    destruct (firstMatch (TopicTemplates t)
                (strings.TrimPrefix (Parse P F) (Company t)))
      as [Q|] eqn:HQ; [|symmetry in Hty; contradiction].
    destruct (firstMatch_Some _ _ _ HQ) as (k & Hk & Hmk & Hbefore).
    assert (Hki : k = i)
      by exact (lookup_same_type _ Hnd k i Q P Hk Hi Hty).
    subst k. rewrite Hi in Hk. injection Hk as <-.
    split; [exact Hmk|exact Hbefore].
Qed.

(** C10.  A topic that does not begin with the company prefix is matched
    unchanged: trimming the prefix leaves it as it is, and both
    classifications are the scan of the templates on the topic itself. *)
Theorem classification_without_prefix (t : Manager) (input : string) :
  strings.HasPrefix input (Company t) = false ->
  strings.TrimPrefix input (Company t) = input
  /\ GetTopicType t input = firstMatchType (TopicTemplates t) input
  /\ GetTopicTemplate t input = firstMatch (TopicTemplates t) input.
Proof.
  intros Hp.
  assert (H : strings.TrimPrefix input (Company t) = input)
    by (unfold strings.TrimPrefix; rewrite Hp; reflexivity).
  unfold GetTopicType, GetTopicTemplate. rewrite H. auto.
Qed.

End Classification.

Lemma classification_first_match_wins_witness :
  let m := deployment.manager
             [deployment.passengerLocation; deployment.chat;
              deployment.driverLocation] in
  let input := "snapp/driver/d123/location" in
  topics.Regex deployment.chat "/driver/d123/location" = true
  /\ topics.Regex deployment.driverLocation "/driver/d123/location" = true
  /\ topics.GetTopicType m input = topics.Chat
  /\ topics.GetTopicTemplate m input = Some deployment.chat.
Proof.
  intros m input.
  split; [vm_compute; reflexivity|].
  split; [vm_compute; reflexivity|].
  apply (classification_first_match_wins m input 1 deployment.chat).
  - reflexivity.
  - vm_compute; reflexivity.
  - intros j other Hj Hother.
    destruct j as [|j]; [|lia].
    injection Hother as <-. vm_compute; reflexivity.
Defined.

(** C8, the claim as stated fails, in two ways.  The box event pattern
    renders a topic that its own regular expression does not accept: the
    topic is of no type.  The driver location pattern renders a topic its
    own regular expression accepts, and the topic is classified as a chat
    topic, the pattern declared before it. *)
Lemma classify_rendered_topic_other_type :
  (let m := deployment.manager [deployment.boxEvent] in
   let P := deployment.boxEvent in
   let F := deployment.driverFields in
   topics.TopicTemplates m !! 0 = Some P
   /\ template.Execute (topics.Template_ P) EmptyString F
      = ("snapp/box/d123", None)
   /\ topics.Regex P
        (strings.TrimPrefix (topics.Parse P F) (topics.Company m)) = false
   /\ topics.GetTopicType m (topics.Parse P F) = EmptyString
   /\ topics.GetTopicType m (topics.Parse P F) <> topics.Type_ P)
  /\ (let m := deployment.manager
                 [deployment.chat; deployment.driverLocation] in
      let P := deployment.driverLocation in
      let F := deployment.driverFields in
      topics.TopicTemplates m !! 1 = Some P
      /\ template.Execute (topics.Template_ P) EmptyString F
         = ("snapp/driver/d123/location", None)
      /\ topics.Regex P
           (strings.TrimPrefix (topics.Parse P F) (topics.Company m)) = true
      /\ topics.GetTopicType m (topics.Parse P F) = topics.Chat
      /\ topics.GetTopicType m (topics.Parse P F) <> topics.Type_ P).
Proof.
  split; intros m P F.
  - split; [reflexivity|].
    split; [vm_compute; reflexivity|].
    split; [vm_compute; reflexivity|].
    split; [vm_compute; reflexivity|].
    vm_compute. discriminate.
  - split; [reflexivity|].
    split; [vm_compute; reflexivity|].
    split; [vm_compute; reflexivity|].
    split; [vm_compute; reflexivity|].
    vm_compute. discriminate.
Qed.

Lemma classify_rendered_topic_witness :
  let m := deployment.manager
             [deployment.passengerLocation; deployment.driverLocation] in
  topics.Parse deployment.driverLocation deployment.driverFields
  = "snapp/driver/d123/location"
  /\ topics.GetTopicType m
       (topics.Parse deployment.driverLocation deployment.driverFields)
     = topics.DriverLocation.
Proof.
  intros m.
  split; [vm_compute; reflexivity|].
  apply (classify_rendered_topic m 1 deployment.driverLocation
           deployment.driverFields).
  - reflexivity.
  - vm_compute; reflexivity.
  - intros j other Hj Hother.
    destruct j as [|j]; [|lia].
    injection Hother as <-. vm_compute; reflexivity.
Defined.

Lemma classification_without_prefix_witness :
  let m := deployment.manager [deployment.driverLocation] in
  let input := "/driver/d123/location" in
  strings.HasPrefix input (topics.Company m) = false
  /\ topics.GetTopicType m input = topics.DriverLocation
  /\ topics.GetTopicTemplate m input = Some deployment.driverLocation.
Proof.
  intros m input.
  assert (Hp : strings.HasPrefix input (topics.Company m) = false)
    by (vm_compute; reflexivity).
  split; [exact Hp|].
  destruct (classification_without_prefix m input Hp) as (_ & Hty & Htm).
  rewrite Hty, Htm. split; vm_compute; reflexivity.
Defined.

(** ** Rendering *)

(** C9.  When the execution of the template fails, whatever it had
    written by then, [Parse] returns the empty string; its result type is
    a string, so the error goes no further. *)
Theorem Parse_failure_is_empty (t : topics.Template)
    (fields : gmap string string) (written : string)
    (e : template.ExecError) :
  template.Execute (topics.Template_ t) EmptyString fields
  = (written, Some e) ->
  topics.Parse t fields = EmptyString.
Proof.
  intros H. unfold topics.Parse. rewrite H. reflexivity.
Qed.

Lemma Parse_failure_is_empty_witness :
  template.Execute (topics.Template_ deployment.broken) EmptyString
    deployment.driverFields
  = ("snapp/", Some (template.CantEvaluateField "name"))
  /\ topics.Parse deployment.broken deployment.driverFields = EmptyString.
Proof.
  assert (H : template.Execute (topics.Template_ deployment.broken)
                EmptyString deployment.driverFields
              = ("snapp/", Some (template.CantEvaluateField "name")))
    by (vm_compute; reflexivity).
  split; [exact H|].
  exact (Parse_failure_is_empty deployment.broken deployment.driverFields
           "snapp/" (template.CantEvaluateField "name") H).
Defined.

(** Without a failure, [Parse] returns what was written. *)
Lemma Parse_success (t : topics.Template) (fields : gmap string string)
    (written : string) :
  template.Execute (topics.Template_ t) EmptyString fields
  = (written, None) ->
  topics.Parse t fields = written.
Proof.
  intros H. unfold topics.Parse. rewrite H. reflexivity.
Qed.

(** ** The identity token *)

Section HashID.

Import topics.

Variable t : Manager.

Lemma getHashID_CabEvent sub issuer :
  getHashID t CabEvent sub issuer
  = match snappids.DecodeHashID (HashIDSManager t) sub
            (issuerToAudience issuer) with
    | Some id => inl (md5HashID id)
    | None => inr ErrDecodeHashID
    end.
Proof.
  unfold getHashID. simpl.
  destruct (snappids.DecodeHashID _ _ _); reflexivity.
Qed.

Lemma getHashID_other topicType sub issuer :
  topicType <> CabEvent ->
  getHashID t topicType sub issuer = inl sub.
Proof.
  intros Hne. unfold getHashID.
  destruct (String.eqb_spec topicType CabEvent) as [Heq|_];
    [contradiction|reflexivity].
Qed.

(** C6, as amended.  The identity token is selected by the type of the
    pattern, not by its declared hash type: for the cab event type it is
    the hexadecimal MD5 digest of ["emqch-"] followed by the decimal id
    decoded from the subject, and an error when the subject does not
    decode; for every other type it is the subject itself.  The digest is
    a function of the id. *)
Theorem getHashID_selected_by_type (topicTemplate : Template)
    (sub : string) (issuer : user.Issuer) :
  getHashID t (Type_ topicTemplate) sub issuer
  = (if String.eqb (Type_ topicTemplate) CabEvent then
       match snappids.DecodeHashID (HashIDSManager t) sub
               (issuerToAudience issuer) with
       | Some id =>
           inl (gofmt.hex (md5.Sum (gofmt.bytes_of_string
                  ("emqch-" ++ gofmt.Itoa id))))
       | None => inr ErrDecodeHashID
       end
     else inl sub).
Proof.
  destruct (String.eqb_spec (Type_ topicTemplate) CabEvent) as [Heq|Hne].
  - rewrite Heq. apply getHashID_CabEvent.
  - apply getHashID_other. exact Hne.
Qed.

End HashID.

(** C6, the claim as stated fails: the driver location pattern declares
    the hash type [MD5], and its identity token is the subject, not the
    secondary hash the declared hash type selects. *)
Lemma getHashID_ignores_HashType :
  let m := deployment.manager [deployment.driverLocation] in
  let P := deployment.driverLocation in
  topics.HashType_ P = topics.MD5
  /\ topics.getHashID m (topics.Type_ P) "d123" user.Driver = inl "d123"
  /\ topics.tokenByHashKind m (topics.HashType_ P) "d123" user.Driver
     = inl "152384980615c2bd16143cff29038b67"
  /\ topics.getHashID m (topics.Type_ P) "d123" user.Driver
     <> topics.tokenByHashKind m (topics.HashType_ P) "d123" user.Driver.
Proof.
  intros m P.
  split; [reflexivity|].
  split; [vm_compute; reflexivity|].
  split; [vm_compute; reflexivity|].
  vm_compute. discriminate.
Qed.

(** ** Self-topic validation *)

Section ValidateTopicBySender.

Import topics.

Variable t : Manager.
Variable topic : string.
Variable issuer : user.Issuer.
Variable sub : string.

(** With fewer than five segments, reading the node panics. *)
Lemma topicFields_short_node_topic (topicTemplate : Template) hashID :
  Type_ topicTemplate = NodeCallEntry ->
  List.length (strings.Split topic "/"%char) <= 4 ->
  topicFields t topicTemplate topic issuer hashID
  = Panics (IndexOutOfRange 4 (List.length (strings.Split topic "/"%char))).
Proof.
  intros Hty Hlen. unfold topicFields. rewrite Hty. simpl.
  unfold index.
  rewrite (proj2 (lookup_ge_None (strings.Split topic "/"%char) 4));
    [reflexivity|].
  exact Hlen.
Qed.

(** With five segments or more, or for another type, the field set is
    built. *)
Lemma topicFields_returns (topicTemplate : Template) hashID :
  Type_ topicTemplate <> NodeCallEntry
  \/ 4 < List.length (strings.Split topic "/"%char) ->
  exists fields,
    topicFields t topicTemplate topic issuer hashID = Returns fields.
Proof.
  intros H. unfold topicFields.
  destruct (String.eqb_spec (Type_ topicTemplate) NodeCallEntry) as [Heq|Hne].
  - destruct H as [H|H]; [contradiction|].
    unfold index.
    destruct (lookup_lt_is_Some_2 (strings.Split topic "/"%char) 4 H)
      as [node Hnode].
    rewrite Hnode. simpl. eexists. reflexivity.
  - eexists. reflexivity.
Qed.

(** C3, evaluated on the code.  For every topic that classifies as the
    node call entry pattern and has fewer than five segments,
    [ValidateTopicBySender] does not return false: it panics, the index 4
    being out of range. *)
Theorem ValidateTopicBySender_short_node_topic_panics
    (topicTemplate : Template) :
  GetTopicTemplate t topic = Some topicTemplate ->
  Type_ topicTemplate = NodeCallEntry ->
  List.length (strings.Split topic "/"%char) <= 4 ->
  ValidateTopicBySender t topic issuer sub
  = Panics (IndexOutOfRange 4 (List.length (strings.Split topic "/"%char))).
Proof.
  intros Hm Hty Hlen. unfold ValidateTopicBySender. rewrite Hm.
  rewrite getHashID_other by (rewrite Hty; discriminate).
  rewrite (topicFields_short_node_topic _ _ Hty Hlen). reflexivity.
Qed.

(** C4.  [ValidateTopicBySender] returns false when no pattern matches
    the topic and when the identity token cannot be derived.  Otherwise it
    returns true if and only if the field set is built and the pattern
    rendered on it is the topic, byte for byte; and whenever the field set
    is built it returns whether the two strings are equal. *)
Theorem ValidateTopicBySender_spec :
  (GetTopicTemplate t topic = None ->
   ValidateTopicBySender t topic issuer sub = Returns false)
  /\ (forall topicTemplate e,
        GetTopicTemplate t topic = Some topicTemplate ->
        getHashID t (Type_ topicTemplate) sub issuer = inr e ->
        ValidateTopicBySender t topic issuer sub = Returns false)
  /\ (forall topicTemplate hashID,
        GetTopicTemplate t topic = Some topicTemplate ->
        getHashID t (Type_ topicTemplate) sub issuer = inl hashID ->
        (ValidateTopicBySender t topic issuer sub = Returns true
         <-> exists fields,
               topicFields t topicTemplate topic issuer hashID
               = Returns fields
               /\ Parse topicTemplate fields = topic)
        /\ (forall fields,
              topicFields t topicTemplate topic issuer hashID
              = Returns fields ->
              ValidateTopicBySender t topic issuer sub
              = Returns (String.eqb (Parse topicTemplate fields) topic))).
Proof.
  unfold ValidateTopicBySender.
  split; [|split].
  - intros ->. reflexivity.
  - intros topicTemplate e -> ->. reflexivity.
  - intros topicTemplate hashID -> ->. split.
    + destruct (topicFields t topicTemplate topic issuer hashID)
        as [fields|p]; simpl.
      * split.
        -- intros H. injection H as H. apply String.eqb_eq in H.
           exists fields. split; [reflexivity|exact H].
        -- intros (fields' & Hf & Hp). injection Hf as <-.
           rewrite (proj2 (String.eqb_eq _ _) Hp). reflexivity.
      * split; [discriminate|].
        intros (fields' & Hf & _). discriminate.
    + intros fields ->. reflexivity.
Qed.

End ValidateTopicBySender.

Lemma ValidateTopicBySender_short_node_topic_panics_witness :
  let m := deployment.manager [deployment.nodeCallEntry] in
  let topic := "snapp/driver/d123" in
  strings.Split topic "/"%char = ["snapp"; "driver"; "d123"]
  /\ topics.GetTopicType m topic = topics.NodeCallEntry
  /\ topics.ValidateTopicBySender m topic user.Driver "d123"
     = Panics (IndexOutOfRange 4 3).
Proof.
  intros m topic.
  split; [vm_compute; reflexivity|].
  split; [vm_compute; reflexivity|].
  apply (ValidateTopicBySender_short_node_topic_panics m topic user.Driver
           "d123" deployment.nodeCallEntry).
  - vm_compute; reflexivity.
  - reflexivity.
  - vm_compute; lia.
Defined.

(** The node call entry topic of a driver, with its six segments, is
    validated. *)
Example ValidateTopicBySender_node_topic :
  topics.ValidateTopicBySender (deployment.manager [deployment.nodeCallEntry])
    "snapp/driver/d123/call/node7/send" user.Driver "d123"
  = Returns true.
Proof. vm_compute. reflexivity. Qed.

(** The cab event topic of the driver 123, as in the authenticator's
    tests. *)
Example ValidateTopicBySender_cab_event :
  topics.ValidateTopicBySender
    (topics.mkManager deployment.codec EmptyString [deployment.cabEvent])
    "driver-event-152384980615c2bd16143cff29038b67" user.Driver "d123"
  = Returns true.
Proof. vm_compute. reflexivity. Qed.

Lemma ValidateTopicBySender_spec_witness :
  let m := deployment.manager [deployment.driverLocation] in
  topics.ValidateTopicBySender m "snapp/driver/d123/location" user.Driver
    "d123" = Returns true
  /\ topics.ValidateTopicBySender m "snapp/driver/zzz999/location"
       user.Driver "d123" = Returns false
  /\ topics.ValidateTopicBySender m "snapp/unknown-thing" user.Driver
       "d123" = Returns false.
Proof.
  intros m.
  split; [|split].
  - destruct (ValidateTopicBySender_spec m "snapp/driver/d123/location"
                user.Driver "d123") as (_ & _ & H).
    destruct (H deployment.driverLocation "d123") as (Hiff & _);
      [vm_compute; reflexivity|vm_compute; reflexivity|].
    apply Hiff. eexists. split; [reflexivity|vm_compute; reflexivity].
  - destruct (ValidateTopicBySender_spec m "snapp/driver/zzz999/location"
                user.Driver "d123") as (_ & _ & H).
    destruct (H deployment.driverLocation "d123") as (_ & Hret);
      [vm_compute; reflexivity|vm_compute; reflexivity|].
    rewrite (Hret _ eq_refl). vm_compute; reflexivity.
  - destruct (ValidateTopicBySender_spec m "snapp/unknown-thing"
                user.Driver "d123") as (H & _).
    apply H. vm_compute; reflexivity.
Defined.

(** ** The ACL decision *)

Section ACLDecision.

Import authenticator.

Variable ParseTopic :
  topics.Manager -> string -> string -> string -> gmap string jwt.any ->
  option topics.Template.

Variable a : AutoAuthenticator.
Variable accessType : acl.AccessType.
Variable tokenString topic : string.

(** C7.  The ACL decision checks, in this order: the access type against
    the allowed ones, the issuer claim, the subject claim, the topic
    against the patterns, and the access the matched pattern gives the
    issuer.  It returns false with the error of the first check that
    fails, the last one carrying issuer, subject, access type, topic and
    pattern type, and it returns true only when every check passes.  The
    claims are those of the parsed token; a token that does not parse is
    refused right after the access type check. *)
Theorem ACL_checks_in_order :
  (ValidateAccessType a accessType = false ->
   ACL ParseTopic a accessType tokenString topic
   = (false, Some ErrInvalidAccessType))
  /\ (ValidateAccessType a accessType = true ->
      Parser a tokenString = None ->
      ACL ParseTopic a accessType tokenString topic
      = (false, Some ErrInvalidClaims))
  /\ (forall claims,
        ValidateAccessType a accessType = true ->
        Parser a tokenString = Some claims ->
        let iss := jwt.claim claims (IssName (JWTConfig a)) in
        let subject := jwt.claim claims (SubName (JWTConfig a)) in
        let issuer := jwt.sprint iss in
        let sub := jwt.as_string subject in
        (iss = jwt.Nil ->
         ACL ParseTopic a accessType tokenString topic
         = (false, Some ErrIssNotFound))
        /\ (iss <> jwt.Nil -> subject = jwt.Nil ->
            ACL ParseTopic a accessType tokenString topic
            = (false, Some ErrSubNotFound))
        /\ (iss <> jwt.Nil -> subject <> jwt.Nil ->
            ParseTopic (TopicManager a) topic issuer sub claims = None ->
            ACL ParseTopic a accessType tokenString topic
            = (false, Some (InvalidTopicError topic)))
        /\ (forall topicTemplate,
              iss <> jwt.Nil -> subject <> jwt.Nil ->
              ParseTopic (TopicManager a) topic issuer sub claims
              = Some topicTemplate ->
              (topics.HasAccess topicTemplate issuer accessType = false ->
               ACL ParseTopic a accessType tokenString topic
               = (false,
                  Some (TopicNotAllowedError issuer sub accessType topic
                          (topics.Type_ topicTemplate))))
              /\ (topics.HasAccess topicTemplate issuer accessType = true ->
                  ACL ParseTopic a accessType tokenString topic
                  = (true, None))))
  /\ (fst (ACL ParseTopic a accessType tokenString topic) = true ->
      ValidateAccessType a accessType = true
      /\ exists claims topicTemplate,
           Parser a tokenString = Some claims
           /\ jwt.claim claims (IssName (JWTConfig a)) <> jwt.Nil
           /\ jwt.claim claims (SubName (JWTConfig a)) <> jwt.Nil
           /\ ParseTopic (TopicManager a) topic
                (jwt.sprint (jwt.claim claims (IssName (JWTConfig a))))
                (jwt.as_string (jwt.claim claims (SubName (JWTConfig a))))
                claims
              = Some topicTemplate
           /\ topics.HasAccess topicTemplate
                (jwt.sprint (jwt.claim claims (IssName (JWTConfig a))))
                accessType = true).
Proof.
  unfold ACL.
  split; [intros ->; reflexivity|].
  split; [intros -> ->; reflexivity|].
  split.
  - intros claims -> ->. cbv zeta. simpl negb. cbv iota.
    split; [intros ->; reflexivity|].
    split.
    { intros Hi ->.
      destruct (jwt.claim claims (IssName (JWTConfig a)));
        [contradiction|reflexivity|reflexivity]. }
    split.
    { intros Hi Hs ->.
      destruct (jwt.claim claims (IssName (JWTConfig a)));
        [contradiction| |];
        (destruct (jwt.claim claims (SubName (JWTConfig a)));
           [contradiction|reflexivity|reflexivity]). }
    intros topicTemplate Hi Hs ->.
    destruct (jwt.claim claims (IssName (JWTConfig a)));
      [contradiction| |];
      (destruct (jwt.claim claims (SubName (JWTConfig a)));
         [contradiction| |]);
      (split; intros ->; reflexivity).
  - destruct (ValidateAccessType a accessType); simpl; [|discriminate].
    destruct (Parser a tokenString) as [claims|]; simpl; [|discriminate].
    destruct (jwt.claim claims (IssName (JWTConfig a))) eqn:Hi; simpl;
      try discriminate;
      (destruct (jwt.claim claims (SubName (JWTConfig a))) eqn:Hs; simpl;
         try discriminate);
      (destruct (ParseTopic _ _ _ _ _) as [topicTemplate|] eqn:Hp; simpl;
         [|discriminate]);
      (destruct (topics.HasAccess topicTemplate _ accessType) eqn:Ha; simpl;
         [|discriminate]);
      intros _; (split; [reflexivity|]);
      exists claims, topicTemplate; rewrite Hi, Hs; simpl;
      repeat split; try discriminate; assumption.
Qed.

End ACLDecision.

Lemma ACL_checks_in_order_witness :
  let a := deployment.autoAuthenticator in
  let acl_of := authenticator.ACL authenticator.Lookup a in
  acl_of acl.PubSub "driver-token" "snapp/driver/d123/location"
  = (false, Some authenticator.ErrInvalidAccessType)
  /\ acl_of acl.Pub "no-subject-token" "snapp/driver/d123/location"
     = (false, Some authenticator.ErrSubNotFound)
  /\ acl_of acl.Pub "driver-token" "snapp/unknown-thing"
     = (false, Some (authenticator.InvalidTopicError "snapp/unknown-thing"))
  /\ acl_of acl.Sub "driver-token" "snapp/driver/d123/location"
     = (false,
        Some (authenticator.TopicNotAllowedError "0" "d123" acl.Sub
                "snapp/driver/d123/location" topics.DriverLocation))
  /\ acl_of acl.Pub "driver-token" "snapp/driver/d123/location"
     = (true, None).
Proof.
  intros a acl_of. subst acl_of.
  pose (driver := deployment.claimsOf (jwt.Other "0") (jwt.Str "d123")).
  split; [|split; [|split; [|split]]].
  - apply (ACL_checks_in_order authenticator.Lookup a acl.PubSub
             "driver-token" "snapp/driver/d123/location").
    vm_compute; reflexivity.
  - destruct (ACL_checks_in_order authenticator.Lookup a acl.Pub
                "no-subject-token" "snapp/driver/d123/location")
      as (_ & _ & H & _).
    destruct (H {[ "iss" := jwt.Other "0" ]}) as (_ & Hsub & _);
      [vm_compute; reflexivity|vm_compute; reflexivity|].
    apply Hsub; [vm_compute; discriminate|vm_compute; reflexivity].
  - destruct (ACL_checks_in_order authenticator.Lookup a acl.Pub
                "driver-token" "snapp/unknown-thing") as (_ & _ & H & _).
    destruct (H driver) as (_ & _ & Htopic & _);
      [vm_compute; reflexivity|vm_compute; reflexivity|].
    apply Htopic;
      [vm_compute; discriminate|vm_compute; discriminate|
       vm_compute; reflexivity].
  - destruct (ACL_checks_in_order authenticator.Lookup a acl.Sub
                "driver-token" "snapp/driver/d123/location")
      as (_ & _ & H & _).
    destruct (H driver) as (_ & _ & _ & Haccess);
      [vm_compute; reflexivity|vm_compute; reflexivity|].
    destruct (Haccess deployment.driverLocation) as (Hdeny & _);
      [vm_compute; discriminate|vm_compute; discriminate|
       vm_compute; reflexivity|].
    apply Hdeny. vm_compute; reflexivity.
  - destruct (ACL_checks_in_order authenticator.Lookup a acl.Pub
                "driver-token" "snapp/driver/d123/location")
      as (_ & _ & H & _).
    destruct (H driver) as (_ & _ & _ & Haccess);
      [vm_compute; reflexivity|vm_compute; reflexivity|].
    destruct (Haccess deployment.driverLocation) as (_ & Hgrant);
      [vm_compute; discriminate|vm_compute; discriminate|
       vm_compute; reflexivity|].
    apply Hgrant. vm_compute; reflexivity.
Defined.

(** Outside the node call entry topics that are too short, the
    validation returns a boolean. *)
Lemma ValidateTopicBySender_returns (t : topics.Manager) (topic : string)
    (issuer : user.Issuer) (sub : string) :
  (forall topicTemplate,
      topics.GetTopicTemplate t topic = Some topicTemplate ->
      topics.Type_ topicTemplate <> topics.NodeCallEntry
      \/ 4 < List.length (strings.Split topic "/"%char)) ->
  exists b, topics.ValidateTopicBySender t topic issuer sub = Returns b.
Proof.
  intros H. unfold topics.ValidateTopicBySender.
  destruct (topics.GetTopicTemplate t topic) as [topicTemplate|];
    [|eexists; reflexivity].
  destruct (topics.getHashID t _ sub issuer) as [hashID|e];
    [|eexists; reflexivity].
  destruct (topicFields_returns t topic issuer topicTemplate hashID
              (H topicTemplate eq_refl)) as [fields ->].
  simpl. eexists. reflexivity.
Qed.

(* ------------------------------------------------------------------ *)
(** * Further properties of the code                                   *)
(* ------------------------------------------------------------------ *)

(** ** Byte strings *)

(** Appending to a string that begins with [c]. *)
Lemma append_cons (c : ascii) (a b : string) :
  String c a ++ b = String c (a ++ b).
Proof. reflexivity. Qed.

Lemma append_nil_r (a : string) : a ++ EmptyString = a.
Proof.
  induction a as [|c a IH]; [reflexivity|].
  rewrite append_cons, IH. reflexivity.
Qed.

Lemma append_assoc (a b c : string) : (a ++ b) ++ c = a ++ (b ++ c).
Proof.
  induction a as [|x a IH]; [reflexivity|].
  rewrite !append_cons, IH. reflexivity.
Qed.

Lemma length_append (a b : string) :
  String.length (a ++ b) = String.length a + String.length b.
Proof.
  induction a as [|x a IH]; [reflexivity|].
  rewrite append_cons. simpl. rewrite IH. reflexivity.
Qed.

Lemma append_inv_head (a b c : string) : a ++ b = a ++ c -> b = c.
Proof.
  induction a as [|x a IH]; intros H; [exact H|].
  rewrite !append_cons in H. injection H as H. exact (IH H).
Qed.

Lemma append_eq_length (a b x y : string) :
  String.length a = String.length b -> a ++ x = b ++ y -> a = b.
Proof.
  revert b. induction a as [|c a IH]; intros [|d b] Hlen H;
    try discriminate; [reflexivity|].
  rewrite !append_cons in H.
  injection H as -> H. injection Hlen as Hlen.
  rewrite (IH b Hlen H). reflexivity.
Qed.

Lemma HasPrefix_append (p s : string) : strings.HasPrefix (p ++ s) p = true.
Proof.
  induction p as [|c p IH]; [destruct s; reflexivity|].
  rewrite append_cons. simpl. rewrite Ascii.eqb_refl. exact IH.
Qed.

Lemma drop_append (p s : string) : strings.drop (String.length p) (p ++ s) = s.
Proof.
  induction p as [|c p IH]; [reflexivity|].
  rewrite append_cons. simpl. exact IH.
Qed.

(** Trimming a prefix that was put in front gives the string back. *)
Lemma TrimPrefix_append (p s : string) : strings.TrimPrefix (p ++ s) p = s.
Proof.
  unfold strings.TrimPrefix. rewrite HasPrefix_append. apply drop_append.
Qed.

(** [Split] gives one piece more than there are separators. *)
Lemma Split_length (s : string) (sep : ascii) :
  List.length (strings.Split s sep) = S (gostrings.Count s sep).
Proof.
  induction s as [|c s IH]; simpl; [reflexivity|].
  destruct (Ascii.eqb c sep); simpl.
  - rewrite IH. reflexivity.
  - destruct (strings.Split s sep) as [|w ws]; simpl in *; [discriminate|].
    exact IH.
Qed.

(** ** More on classification *)

Section MoreClassification.

Import topics.

Lemma firstMatch_None (templates : list Template) topic :
  firstMatch templates topic = None <->
  Forall (fun each => Regex each topic = false) templates.
Proof.
  split; [|apply firstMatch_none].
  induction templates as [|first rest IH]; simpl; [constructor|].
  destruct (Regex first topic) eqn:Hm; [discriminate|].
  intros H. constructor; [exact Hm|exact (IH H)].
Qed.

Variable t : Manager.
Variable input : string.

(** X1.  The template [GetTopicTemplate] returns is one of the manager's
    templates, its regular expression accepts the trimmed topic and that
    of no template declared before it does; and there is no result
    exactly when no regular expression accepts the trimmed topic. *)
Theorem GetTopicTemplate_sound_complete :
  (forall each,
      GetTopicTemplate t input = Some each ->
      exists i,
        TopicTemplates t !! i = Some each
        /\ Regex each (strings.TrimPrefix input (Company t)) = true
        /\ forall j other,
             j < i -> TopicTemplates t !! j = Some other ->
             Regex other (strings.TrimPrefix input (Company t)) = false)
  /\ (GetTopicTemplate t input = None <->
      Forall (fun each =>
                Regex each (strings.TrimPrefix input (Company t)) = false)
        (TopicTemplates t)).
Proof.
  split.
  - intros each H. apply firstMatch_Some. exact H.
  - apply firstMatch_None.
Qed.

(** X2.  The two scans agree: [GetTopicType] returns the type of the
    template [GetTopicTemplate] returns, and the empty string when there
    is none. *)
Theorem GetTopicType_of_GetTopicTemplate :
  GetTopicType t input
  = match GetTopicTemplate t input with
    | Some each => Type_ each
    | None => EmptyString
    end.
Proof. apply firstMatchType_firstMatch. Qed.

(** X3.  [IsTopicValid] holds exactly when the template found for the
    topic has a type that is not empty: a topic whose template has the
    empty type is found by [GetTopicTemplate] and is not valid. *)
Theorem IsTopicValid_iff :
  IsTopicValid t input = true
  <-> exists each,
        GetTopicTemplate t input = Some each /\ Type_ each <> EmptyString.
Proof.
  unfold IsTopicValid, GetTopicType, GetTopicTemplate.
  rewrite firstMatchType_firstMatch.
  destruct (firstMatch _ _) as [each|].
  - destruct (Type_ each) as [|c ty] eqn:Hty; simpl.
    + split; [discriminate|].
      intros (each' & H & Hne). injection H as <-. contradiction.
    + split; [|reflexivity].
      intros _. exists each. split; [reflexivity|]. rewrite Hty. discriminate.
  - simpl. split; [discriminate|]. intros (each & H & _). discriminate.
Qed.

(** X5.  A topic that no regular expression accepts is of no type, is
    not valid, and is refused by the self-topic validation for every
    issuer and subject. *)
Theorem unmatched_topic_refused (issuer : user.Issuer) (sub : string) :
  Forall (fun each =>
            Regex each (strings.TrimPrefix input (Company t)) = false)
    (TopicTemplates t) ->
  GetTopicType t input = EmptyString
  /\ IsTopicValid t input = false
  /\ ValidateTopicBySender t input issuer sub = Returns false.
Proof.
  intros H. apply firstMatch_None in H.
  assert (Hty : GetTopicType t input = EmptyString).
  { unfold GetTopicType. rewrite firstMatchType_firstMatch, H.
    reflexivity. }
  split; [exact Hty|]. split.
  - unfold IsTopicValid. rewrite Hty. reflexivity.
  - unfold ValidateTopicBySender, GetTopicTemplate. rewrite H. reflexivity.
Qed.

End MoreClassification.

(** X4.  The company prefix is trimmed once: a topic made of the company
    and a rest is classified as the scan of the templates on the rest,
    whatever the rest begins with. *)
Theorem classification_with_prefix (t : topics.Manager) (rest : string) :
  topics.GetTopicType t (topics.Company t ++ rest)
  = topics.firstMatchType (topics.TopicTemplates t) rest
  /\ topics.GetTopicTemplate t (topics.Company t ++ rest)
     = topics.firstMatch (topics.TopicTemplates t) rest.
Proof.
  unfold topics.GetTopicType, topics.GetTopicTemplate.
  rewrite TrimPrefix_append. split; reflexivity.
Qed.

Lemma unmatched_topic_refused_witness :
  let m := deployment.manager
             [deployment.passengerLocation; deployment.driverLocation] in
  topics.GetTopicType m "snapp/unknown-thing" = EmptyString
  /\ topics.IsTopicValid m "snapp/unknown-thing" = false
  /\ topics.ValidateTopicBySender m "snapp/unknown-thing" user.Driver "d123"
     = Returns false.
Proof.
  intros m.
  apply (unmatched_topic_refused m "snapp/unknown-thing" user.Driver "d123").
  repeat constructor.
Defined.

(** ** More on rendering *)

Section Rendering.

Import rendering.

(** Execution goes on after a node that succeeds and stops at one that
    does not. *)
Lemma walk_succeeds (nodes : template.Template) (data : gmap string string) :
  forallb (succeeds data) nodes = true ->
  forall writer,
    template.walk nodes data writer = (writer ++ render nodes data, None).
Proof.
  induction nodes as [|n nodes IH]; intros Hp writer.
  - simpl. rewrite append_nil_r. reflexivity.
  - simpl in Hp. apply andb_true_iff in Hp as [Hn Hp].
    destruct n as [text|ident rest]; simpl.
    + rewrite (IH Hp), append_assoc. reflexivity.
    + unfold template.evalField. simpl in Hn.
      destruct (data !! ident) as [v|].
      * destruct rest as [|f rest]; [|discriminate].
        rewrite (IH Hp), append_assoc. reflexivity.
      * rewrite (IH Hp), append_assoc. reflexivity.
Qed.

Lemma walk_fails (nodes : template.Template) (data : gmap string string) :
  forallb (succeeds data) nodes = false ->
  forall writer,
    exists written e, template.walk nodes data writer = (written, Some e).
Proof.
  induction nodes as [|n nodes IH]; intros Hp writer; [discriminate|].
  simpl in Hp.
  destruct n as [text|ident rest]; simpl in *.
  - apply IH. exact Hp.
  - unfold template.evalField.
    destruct (data !! ident) as [v|].
    + destruct rest as [|f rest].
      * apply IH. exact Hp.
      * eexists _, _. reflexivity.
    + apply IH. destruct rest; exact Hp.
Qed.

Variable t : topics.Template.

Lemma Parse_succeeds (fields : gmap string string) :
  forallb (succeeds fields) (topics.Template_ t) = true ->
  topics.Parse t fields = render (topics.Template_ t) fields.
Proof.
  intros Hp. unfold topics.Parse, template.Execute.
  rewrite (walk_succeeds _ fields Hp). reflexivity.
Qed.

Lemma Parse_fails (fields : gmap string string) :
  forallb (succeeds fields) (topics.Template_ t) = false ->
  topics.Parse t fields = EmptyString.
Proof.
  intros Hp. unfold topics.Parse, template.Execute.
  destruct (walk_fails _ fields Hp EmptyString) as (written & e & H).
  rewrite H. reflexivity.
Qed.

(** X6.  For a template of text and field actions, rendering fails
    exactly when some action asks a field of a key that is present in the
    map, its value being a string.  Otherwise the template renders to its
    pieces one after the other, an action on a missing key writing
    [<no value>]. *)
Theorem Parse_renders_or_fails (fields : gmap string string) :
  (forallb (succeeds fields) (topics.Template_ t) = true ->
   template.Execute (topics.Template_ t) EmptyString fields
   = (render (topics.Template_ t) fields, None)
   /\ topics.Parse t fields = render (topics.Template_ t) fields)
  /\ (forallb (succeeds fields) (topics.Template_ t) = false ->
      (exists written e,
          template.Execute (topics.Template_ t) EmptyString fields
          = (written, Some e))
      /\ topics.Parse t fields = EmptyString).
Proof.
  unfold topics.Parse, template.Execute. split; intros Hp.
  - rewrite (walk_succeeds _ fields Hp). split; reflexivity.
  - destruct (walk_fails _ fields Hp EmptyString) as (written & e & H).
    rewrite H. split; [eauto|reflexivity].
Qed.

End Rendering.

(** A missing key is written as [<no value>], a chain on it too, and a
    chain on a key that is present fails. *)
Example Parse_missing_key :
  topics.Parse deployment.nodeCallEntry deployment.driverFields
  = "snapp/<no value>/d123/call/<no value>/send"
  /\ topics.Parse deployment.broken ∅ = "<no value>/<no value>"
  /\ topics.Parse deployment.broken deployment.driverFields = EmptyString.
Proof. repeat split; vm_compute; reflexivity. Qed.

(** ** One subject per topic *)

Section RenderInjective.

Import rendering.

Variables data1 data2 : gmap string string.
Variable name : string.
Variables v1 v2 : string.

Hypothesis Hv1 : data1 !! name = Some v1.
Hypothesis Hv2 : data2 !! name = Some v2.
Hypothesis Hothers : forall k, k <> name -> data1 !! k = data2 !! k.

Lemma piece_named ident :
  String.eqb ident name = true ->
  piece data1 (template.FieldNode ident []) = v1
  /\ piece data2 (template.FieldNode ident []) = v2.
Proof.
  intros H. apply String.eqb_eq in H. subst ident. simpl.
  rewrite Hv1, Hv2. split; reflexivity.
Qed.

Lemma piece_other ident rest :
  ident <> name ->
  piece data1 (template.FieldNode ident rest)
  = piece data2 (template.FieldNode ident rest).
Proof.
  intros H. simpl. rewrite (Hothers ident H). reflexivity.
Qed.

(** A chain that succeeds is a chain on another key. *)
Lemma chain_other ident f rest :
  succeeds data1 (template.FieldNode ident (f :: rest)) = true ->
  ident <> name.
Proof.
  simpl. intros H Heq. subst ident. rewrite Hv1 in H. discriminate.
Qed.

(** The two renderings differ in length by the two values, once per
    occurrence of the field. *)
Lemma render_lengths (nodes : template.Template) :
  forallb (succeeds data1) nodes = true ->
  String.length (render nodes data1)
  + occurrences name nodes * String.length v2
  = String.length (render nodes data2)
    + occurrences name nodes * String.length v1.
Proof.
  induction nodes as [|n nodes IH]; intros Hp; [reflexivity|].
  simpl in Hp. apply andb_true_iff in Hp as [Hn Hp]. specialize (IH Hp).
  destruct n as [text|ident [|f rest]].
  - simpl. rewrite !length_append. lia.
  - cbn [render occurrences]. rewrite !length_append.
    destruct (String.eqb ident name) eqn:He.
    + destruct (piece_named ident He) as [-> ->]. lia.
    + apply String.eqb_neq in He. rewrite (piece_other ident [] He). lia.
  - cbn [render occurrences]. rewrite !length_append.
    rewrite (piece_other ident (f :: rest) (chain_other _ _ _ Hn)). lia.
Qed.

(** Two renderings of a template in which the field occurs are equal
    only if the two values are. *)
Lemma render_inj (nodes : template.Template) :
  forallb (succeeds data1) nodes = true ->
  0 < occurrences name nodes ->
  render nodes data1 = render nodes data2 ->
  v1 = v2.
Proof.
  induction nodes as [|n nodes IH]; intros Hp Hocc Heq; [simpl in Hocc; lia|].
  simpl in Hp. apply andb_true_iff in Hp as [Hn Hp].
  destruct n as [text|ident [|f rest]].
  - simpl in Heq, Hocc. apply append_inv_head in Heq. exact (IH Hp Hocc Heq).
  - cbn [render occurrences] in Heq, Hocc.
    destruct (String.eqb ident name) eqn:He.
    + destruct (piece_named ident He) as [H1 H2]. rewrite H1, H2 in Heq.
      pose proof (render_lengths nodes Hp) as Hlen.
      pose proof (f_equal String.length Heq) as Hl.
      rewrite !length_append in Hl.
      apply (append_eq_length v1 v2 (render nodes data1)
               (render nodes data2)); [nia|exact Heq].
    + apply String.eqb_neq in He.
      rewrite (piece_other ident [] He) in Heq.
      apply append_inv_head in Heq. apply (IH Hp); [|exact Heq].
      simpl in Hocc. exact Hocc.
  - cbn [render occurrences] in Heq, Hocc.
    rewrite (piece_other ident (f :: rest) (chain_other _ _ _ Hn)) in Heq.
    apply append_inv_head in Heq. exact (IH Hp Hocc Heq).
Qed.

End RenderInjective.

Lemma occurrences_In (name : string) (nodes : template.Template) :
  In (template.FieldNode name []) nodes ->
  0 < rendering.occurrences name nodes.
Proof.
  induction nodes as [|n nodes IH]; intros Hin; [destruct Hin|].
  destruct Hin as [->|Hin].
  - simpl. rewrite String.eqb_refl. lia.
  - specialize (IH Hin).
    destruct n as [text|ident [|f rest]]; simpl; lia.
Qed.

Section OneSubject.

Import topics.

Variable t : Manager.
Variable topic : string.
Variable issuer : user.Issuer.

(** The field set holds the hash id it was built with, and two field
    sets built for the same topic and issuer differ in the hash id
    only. *)
Lemma topicFields_hashId (topicTemplate : Template) hashID fields :
  topicFields t topicTemplate topic issuer hashID = Returns fields ->
  fields !! "hashId" = Some hashID.
Proof.
  unfold topicFields.
  destruct (String.eqb (Type_ topicTemplate) NodeCallEntry).
  - destruct (index (strings.Split topic "/"%char) 4) as [node|p]; simpl;
      [|discriminate].
    intros H. injection H as <-.
    rewrite lookup_insert_ne by discriminate.
    apply lookup_insert_eq.
  - intros H. injection H as <-. apply lookup_insert_eq.
Qed.

Lemma topicFields_others (topicTemplate : Template) hashID1 hashID2
    fields1 fields2 :
  topicFields t topicTemplate topic issuer hashID1 = Returns fields1 ->
  topicFields t topicTemplate topic issuer hashID2 = Returns fields2 ->
  forall k, k <> "hashId" -> fields1 !! k = fields2 !! k.
Proof.
  unfold topicFields.
  destruct (String.eqb (Type_ topicTemplate) NodeCallEntry).
  - destruct (index (strings.Split topic "/"%char) 4) as [node|p]; simpl;
      [|discriminate].
    intros H1 H2 k Hk. injection H1 as <-. injection H2 as <-.
    destruct (decide (k = "node")) as [->|Hn].
    + rewrite !lookup_insert_eq. reflexivity.
    + rewrite !(lookup_insert_ne _ "node") by congruence.
      rewrite !(lookup_insert_ne _ "hashId") by congruence. reflexivity.
  - intros H1 H2 k Hk. injection H1 as <-. injection H2 as <-.
    rewrite !(lookup_insert_ne _ "hashId") by congruence. reflexivity.
Qed.

(** What a successful validation says about the template found. *)
Lemma ValidateTopicBySender_true (topicTemplate : Template) sub :
  GetTopicTemplate t topic = Some topicTemplate ->
  ValidateTopicBySender t topic issuer sub = Returns true ->
  exists hashID fields,
    getHashID t (Type_ topicTemplate) sub issuer = inl hashID
    /\ topicFields t topicTemplate topic issuer hashID = Returns fields
    /\ Parse topicTemplate fields = topic.
Proof.
  intros Hm. unfold ValidateTopicBySender. rewrite Hm.
  destruct (getHashID t (Type_ topicTemplate) sub issuer) as [hashID|e];
    [|discriminate].
  destruct (topicFields t topicTemplate topic issuer hashID)
    as [fields|p] eqn:Hf; simpl; [|discriminate].
  intros H. injection H as H. apply String.eqb_eq in H.
  exists hashID, fields. auto.
Qed.

(** X8.  One identity token per topic, for templates of text and field
    actions: when the template found for a non-empty topic has the action
    [{{.hashId}}] and the validation succeeds for two subjects of the
    same issuer, the two subjects have the same identity token; unless
    the topic is a cab event, they are the same subject. *)
Theorem ValidateTopicBySender_one_subject (topicTemplate : Template)
    (sub1 sub2 : string) :
  GetTopicTemplate t topic = Some topicTemplate ->
  In (template.FieldNode "hashId" []) (Template_ topicTemplate) ->
  topic <> EmptyString ->
  ValidateTopicBySender t topic issuer sub1 = Returns true ->
  ValidateTopicBySender t topic issuer sub2 = Returns true ->
  getHashID t (Type_ topicTemplate) sub1 issuer
  = getHashID t (Type_ topicTemplate) sub2 issuer
  /\ (Type_ topicTemplate <> CabEvent -> sub1 = sub2).
Proof.
  intros Hm Hin Hne H1 H2.
  destruct (ValidateTopicBySender_true topicTemplate sub1 Hm H1)
    as (h1 & fields1 & Hh1 & Hf1 & Hp1).
  destruct (ValidateTopicBySender_true topicTemplate sub2 Hm H2)
    as (h2 & fields2 & Hh2 & Hf2 & Hp2).
  assert (Hsucc : forall fields,
             Parse topicTemplate fields = topic ->
             forallb (rendering.succeeds fields) (Template_ topicTemplate)
             = true).
  { intros fields Hp.
    destruct (forallb (rendering.succeeds fields) (Template_ topicTemplate))
      eqn:Hs; [reflexivity|].
    rewrite (Parse_fails topicTemplate fields Hs) in Hp.
    symmetry in Hp. contradiction. }
  assert (Heq : h1 = h2).
  { apply (render_inj fields1 fields2 "hashId" h1 h2
             (topicFields_hashId _ _ _ Hf1) (topicFields_hashId _ _ _ Hf2)
             (topicFields_others _ _ _ _ _ Hf1 Hf2)
             (Template_ topicTemplate) (Hsucc fields1 Hp1)).
    - apply occurrences_In. exact Hin.
    - rewrite <- (Parse_succeeds topicTemplate fields1 (Hsucc fields1 Hp1)).
      rewrite <- (Parse_succeeds topicTemplate fields2 (Hsucc fields2 Hp2)).
      rewrite Hp1, Hp2. reflexivity. }
  subst h2. split; [rewrite Hh1, Hh2; reflexivity|].
  intros Hcab.
  rewrite (getHashID_other t _ sub1 issuer Hcab) in Hh1.
  rewrite (getHashID_other t _ sub2 issuer Hcab) in Hh2.
  congruence.
Qed.

End OneSubject.

Lemma ValidateTopicBySender_one_subject_witness :
  let m := topics.mkManager deployment.twoTokenCodec EmptyString
             [deployment.cabEvent] in
  let topic := "driver-event-152384980615c2bd16143cff29038b67" in
  topics.ValidateTopicBySender m topic user.Driver "d123" = Returns true
  /\ topics.ValidateTopicBySender m topic user.Driver "D123" = Returns true
  /\ topics.getHashID m topics.CabEvent "d123" user.Driver
     = topics.getHashID m topics.CabEvent "D123" user.Driver.
Proof.
  intros m topic.
  assert (H1 : topics.ValidateTopicBySender m topic user.Driver "d123"
               = Returns true) by (vm_compute; reflexivity).
  assert (H2 : topics.ValidateTopicBySender m topic user.Driver "D123"
               = Returns true) by (vm_compute; reflexivity).
  split; [exact H1|]. split; [exact H2|].
  apply (ValidateTopicBySender_one_subject m topic user.Driver
           deployment.cabEvent "d123" "D123").
  - vm_compute; reflexivity.
  - simpl. right. right. left. reflexivity.
  - discriminate.
  - exact H1.
  - exact H2.
Defined.

(** ** The field set *)


Section Fields.

Import topics.

(** X9.  Audience and peer are complementary: for the driver issuer the
    audience is the driver and the peer the passenger, for the passenger
    issuer the other way round, and for every other issuer both are
    empty.  The numeric audience agrees: it is -1 exactly for those other
    issuers. *)
Theorem issuer_audience_peer (issuer : user.Issuer) :
  (issuer = user.Driver ->
   issuerToAudienceStr issuer = Driver
   /\ peerOfAudience (issuerToAudienceStr issuer) = Passenger
   /\ issuerToAudience issuer = snappids.DriverAudience)
  /\ (issuer = user.Passenger ->
      issuerToAudienceStr issuer = Passenger
      /\ peerOfAudience (issuerToAudienceStr issuer) = Driver
      /\ issuerToAudience issuer = snappids.PassengerAudience)
  /\ (issuer <> user.Driver -> issuer <> user.Passenger ->
      issuerToAudienceStr issuer = EmptyString
      /\ peerOfAudience (issuerToAudienceStr issuer) = EmptyString
      /\ issuerToAudience issuer = (-1)%Z).
Proof.
  unfold issuerToAudienceStr, issuerToAudience.
  split; [|split].
  - intros ->. repeat split.
  - intros ->. repeat split.
  - intros Hd Hp.
    destruct (String.eqb_spec issuer user.Passenger); [contradiction|].
    destruct (String.eqb_spec issuer user.Driver); [contradiction|].
    repeat split.
Qed.

(** X10.  The peer of the peer of a role is the role, and an audience
    that is no role has no peer: the peer is empty. *)
Theorem peerOfAudience_involutive (audience : string) :
  (audience = Driver \/ audience = Passenger ->
   peerOfAudience (peerOfAudience audience) = audience
   /\ peerOfAudience audience <> audience)
  /\ (audience <> Driver -> audience <> Passenger ->
      peerOfAudience audience = EmptyString).
Proof.
  split.
  - intros [-> | ->]; split; try reflexivity; discriminate.
  - intros Hd Hp. unfold peerOfAudience.
    destruct (String.eqb_spec audience Driver); [contradiction|].
    destruct (String.eqb_spec audience Passenger); [contradiction|].
    reflexivity.
Qed.

Variable t : Manager.
Variable topicTemplate : Template.
Variable topic : string.
Variable issuer : user.Issuer.
Variable hashID : string.

Lemma senderFields_unfold :
  senderFields t issuer
  = <["peer" := peerOfAudience (issuerToAudienceStr issuer)]>
      (<["company" := Company t]>
         (<["audience" := issuerToAudienceStr issuer]> ∅)).
Proof.
  unfold senderFields.
  rewrite lookup_insert_ne by discriminate.
  rewrite lookup_insert_eq. reflexivity.
Qed.

(** X11.  The field set the validation renders with: the company of the
    manager, the audience of the issuer and its peer, the hash id, and a
    node only for a node call entry, where it is the fifth segment of the
    topic as it was requested, company prefix included. *)
Theorem topicFields_contents (fields : gmap string string) :
  topicFields t topicTemplate topic issuer hashID = Returns fields ->
  fields !! "company" = Some (Company t)
  /\ fields !! "audience" = Some (issuerToAudienceStr issuer)
  /\ fields !! "peer" = Some (peerOfAudience (issuerToAudienceStr issuer))
  /\ fields !! "hashId" = Some hashID
  /\ fields !! "node"
     = (if String.eqb (Type_ topicTemplate) NodeCallEntry
        then strings.Split topic "/"%char !! 4
        else None)
  /\ (String.eqb (Type_ topicTemplate) NodeCallEntry = true ->
      4 < List.length (strings.Split topic "/"%char)).
Proof.
  unfold topicFields. rewrite senderFields_unfold.
  destruct (String.eqb (Type_ topicTemplate) NodeCallEntry).
  - unfold index.
    destruct (strings.Split topic "/"%char !! 4) as [node|] eqn:Hnode;
      simpl; [|discriminate].
    intros H. injection H as <-.
    repeat split; try lookup_field.
    intros _. apply lookup_lt_Some in Hnode. exact Hnode.
  - intros H. injection H as <-.
    repeat split; try lookup_field. discriminate.
Qed.

End Fields.

Lemma topicFields_contents_witness :
  let m := deployment.manager [deployment.nodeCallEntry] in
  let topic := "snapp/driver/d123/call/node7/send" in
  let fields : gmap string string :=
    <["node" := "node7"]>
      (<["hashId" := "d123"]> (topics.senderFields m user.Driver)) in
  topics.topicFields m deployment.nodeCallEntry topic user.Driver "d123"
  = Returns fields
  /\ fields !! "company" = Some "snapp"
  /\ fields !! "audience" = Some "driver"
  /\ fields !! "peer" = Some "passenger"
  /\ fields !! "node" = Some "node7".
Proof.
  intros m topic fields.
  assert (H : topics.topicFields m deployment.nodeCallEntry topic
                user.Driver "d123" = Returns fields) by reflexivity.
  split; [exact H|].
  destruct (topicFields_contents m deployment.nodeCallEntry topic
              user.Driver "d123" fields H)
    as (Hc & Ha & Hp & _ & Hn & _).
  split; [exact Hc|]. split; [exact Ha|]. split; [exact Hp|]. exact Hn.
Defined.

(** ** More on the access decision *)

Section MoreHasAccess.

Import topics.

Variable t : Template.
Variable audience : string.

(** X12.  A declared [PubSub] grants every request, and a [PubSub]
    request is granted only by a declared [PubSub]. *)
Theorem HasAccess_PubSub :
  (Accesses t !! audience = Some acl.PubSub ->
   forall accessType, HasAccess t audience accessType = true)
  /\ (HasAccess t audience acl.PubSub = true
      <-> Accesses t !! audience = Some acl.PubSub).
Proof.
  split.
  - intros H accessType. unfold HasAccess. rewrite H. reflexivity.
  - unfold HasAccess.
    destruct (Accesses t !! audience) as [[| | |]|]; simpl;
      split; intros H; try discriminate; reflexivity.
Qed.

(** X13.  The decision for an audience reads the entry of that audience
    only: declaring an access for another audience does not change it. *)
Theorem HasAccess_other_audience (other : string) (declared : acl.AccessType)
    (accessType : acl.AccessType) :
  other <> audience ->
  HasAccess
    (mkTemplate (Type_ t) (Template_ t) (Regex t) (HashType_ t)
       (<[other := declared]> (Accesses t)))
    audience accessType
  = HasAccess t audience accessType.
Proof.
  intros Hne. unfold HasAccess. simpl.
  rewrite lookup_insert_ne by exact Hne. reflexivity.
Qed.

End MoreHasAccess.

Lemma HasAccess_other_audience_witness :
  topics.HasAccess
    (topics.mkTemplate topics.DriverLocation
       (topics.Template_ deployment.driverLocation)
       (topics.Regex deployment.driverLocation) topics.MD5
       (<["1" := acl.PubSub]> (topics.Accesses deployment.driverLocation)))
    "0" acl.Sub
  = false.
Proof.
  refine (eq_trans
            (HasAccess_other_audience deployment.driverLocation "0" "1"
               acl.PubSub acl.Sub _) _).
  - discriminate.
  - vm_compute; reflexivity.
Defined.

(** ** More on the ACL decision *)

Section MoreACL.

Import authenticator.

Lemma inAllowed_In (allowed : list acl.AccessType)
    (accessType : acl.AccessType) :
  inAllowed allowed accessType = true <-> In accessType allowed.
Proof.
  induction allowed as [|first rest IH]; simpl.
  - split; [discriminate|intros []].
  - destruct (acl.eqb first accessType) eqn:He.
    + apply acl_eqb_eq in He. split; [intros _; left; exact He|reflexivity].
    + rewrite IH. split; [intros H; right; exact H|].
      intros [H|H]; [|exact H].
      apply acl_eqb_eq in H. congruence.
Qed.

Lemma ValidateAccessType_allowed (a : AutoAuthenticator)
    (accessType : acl.AccessType) :
  ValidateAccessType a accessType = true ->
  In accessType (AllowedAccessTypes a).
Proof. apply inAllowed_In. Qed.

(** X14.  An access type passes [ValidateAccessType] exactly when it is
    one of the allowed access types; with none allowed, none passes. *)
Theorem ValidateAccessType_iff (a : AutoAuthenticator)
    (accessType : acl.AccessType) :
  ValidateAccessType a accessType = true
  <-> In accessType (AllowedAccessTypes a).
Proof.
  unfold ValidateAccessType. apply inAllowed_In.
Qed.

Variable ParseTopic :
  topics.Manager -> string -> string -> string -> gmap string jwt.any ->
  option topics.Template.

Variable a : AutoAuthenticator.
Variable accessType : acl.AccessType.
Variable tokenString topic : string.

(** X15.  The two results of the ACL decision agree: it allows exactly
    when it returns no error. *)
Theorem ACL_allowed_iff_no_error :
  fst (ACL ParseTopic a accessType tokenString topic) = true
  <-> snd (ACL ParseTopic a accessType tokenString topic) = None.
Proof.
  unfold ACL.
  destruct (negb (ValidateAccessType a accessType));
    [simpl; split; discriminate|].
  destruct (Parser a tokenString) as [claims|];
    [|simpl; split; discriminate].
  destruct (jwt.is_nil (jwt.claim claims (IssName (JWTConfig a))));
    [simpl; split; discriminate|].
  destruct (jwt.is_nil (jwt.claim claims (SubName (JWTConfig a))));
    [simpl; split; discriminate|].
  destruct (ParseTopic _ _ _ _ _) as [topicTemplate|];
    [|simpl; split; discriminate].
  destruct (negb (topics.HasAccess topicTemplate _ accessType));
    simpl; split; try discriminate; reflexivity.
Qed.

(** X16.  Absence denies at the ACL: when [Unset] is not an allowed
    access type and the pattern found has no entry for the issuer of the
    token, the decision is a refusal, for every access type. *)
Theorem ACL_absent_issuer_denied (claims : gmap string jwt.any)
    (topicTemplate : topics.Template) :
  ~ In acl.Unset (AllowedAccessTypes a) ->
  Parser a tokenString = Some claims ->
  ParseTopic (TopicManager a) topic
    (jwt.sprint (jwt.claim claims (IssName (JWTConfig a))))
    (jwt.as_string (jwt.claim claims (SubName (JWTConfig a)))) claims
  = Some topicTemplate ->
  topics.Accesses topicTemplate
    !! jwt.sprint (jwt.claim claims (IssName (JWTConfig a))) = None ->
  fst (ACL ParseTopic a accessType tokenString topic) = false.
Proof.
  intros Hunset Hparse Htopic Habsent. unfold ACL.
  destruct (ValidateAccessType a accessType) eqn:Hv; [|reflexivity].
  simpl. rewrite Hparse.
  destruct (jwt.is_nil (jwt.claim claims (IssName (JWTConfig a))));
    [reflexivity|].
  destruct (jwt.is_nil (jwt.claim claims (SubName (JWTConfig a))));
    [reflexivity|].
  rewrite Htopic.
  assert (Hdeny : topics.HasAccess topicTemplate
                    (jwt.sprint (jwt.claim claims (IssName (JWTConfig a))))
                    accessType = false).
  { unfold topics.HasAccess. rewrite Habsent. simpl.
    destruct accessType; try reflexivity.
    exfalso. apply Hunset. apply ValidateAccessType_allowed. exact Hv. }
  rewrite Hdeny. reflexivity.
Qed.

End MoreACL.

Lemma ACL_absent_issuer_denied_witness :
  let a := authenticator.mkAutoAuthenticator [acl.Pub; acl.Sub]
             (deployment.manager [deployment.passengerLocation]) "snapp"
             (authenticator.mkJWT "iss" "sub") deployment.parser in
  topics.Accesses deployment.passengerLocation !! "0" = None
  /\ fst (authenticator.ACL authenticator.Lookup a acl.Pub "driver-token"
            "snapp/passenger/d123/location") = false.
Proof.
  intros a.
  assert (Habsent : topics.Accesses deployment.passengerLocation !! "0"
                    = None) by (vm_compute; reflexivity).
  split; [exact Habsent|].
  apply (ACL_absent_issuer_denied authenticator.Lookup a acl.Pub
           "driver-token" "snapp/passenger/d123/location"
           (deployment.claimsOf (jwt.Other "0") (jwt.Str "d123"))
           deployment.passengerLocation).
  - simpl. intros [H|[H|[]]]; discriminate.
  - vm_compute; reflexivity.
  - vm_compute; reflexivity.
  - exact Habsent.
Defined.

(** ** The black list checker *)

Section BlackList.

Import blacklist.

Lemma fold_insert_lookup (ids : list Z) (users : gmap Z unit) (userID : Z) :
  is_Some (fold_left (fun (users : gmap Z unit) id => <[id := tt]> users)
             ids users !! userID)
  <-> In userID ids \/ is_Some (users !! userID).
Proof.
  revert users. induction ids as [|id ids IH]; intros users; simpl.
  - split; [intros H; right; exact H|intros [[]|H]; exact H].
  - rewrite IH. destruct (decide (id = userID)) as [->|Hne].
    + rewrite lookup_insert_eq. split; [intros _; left; left; reflexivity|].
      intros _. right. eexists. reflexivity.
    + rewrite lookup_insert_ne by exact Hne.
      split; [intros [H|H]; [left; right; exact H|right; exact H]|].
      intros [[H|H]|H]; [contradiction|left; exact H|right; exact H].
Qed.

(** X17.  The checker built from a configuration reports a user exactly
    when the issuer is the configured one and the user id is one of the
    configured ids; with another issuer no user is reported. *)
Theorem isBlackList_iff (cfg : config.BlackListUserLogging) (userID iss : Z) :
  isBlackList (NewAutoBlackListChecker cfg) userID iss = true
  <-> iss = config.Iss cfg /\ In userID (config.UserIDs cfg).
Proof.
  unfold isBlackList, NewAutoBlackListChecker. simpl.
  destruct (Z.eqb_spec iss (config.Iss cfg)) as [Heq|Hne]; simpl.
  - pose proof (fold_insert_lookup (config.UserIDs cfg) ∅ userID) as H.
    destruct (fold_left _ (config.UserIDs cfg) ∅ !! userID) as [u|].
    + split; [|reflexivity]. intros _. split; [exact Heq|].
      destruct (proj1 H) as [Hin|Hemp]; [eexists; reflexivity|exact Hin|].
      rewrite lookup_empty in Hemp. destruct Hemp as [x Hx]. discriminate.
    + split; [discriminate|]. intros [_ Hin].
      destruct (proj2 H (or_introl Hin)) as [x Hx]. discriminate.
  - split; [discriminate|]. intros [Heq _]. contradiction.
Qed.

End BlackList.

(** ** Names of environment variables *)

Section EnvKey.

Import gostrings.








End EnvKey.


(** ** The form of the secondary hash *)

Section HashForm.

Local Open Scope Z_scope.

Lemma le_bytes_length (n : nat) (x : Z) : List.length (md5.le_bytes n x) = n.
Proof. unfold md5.le_bytes. rewrite length_map, length_seq. reflexivity. Qed.

Lemma le_bytes_range (n : nat) (x : Z) :
  Forall (fun b => 0 <= b < 256) (md5.le_bytes n x).
Proof.
  unfold md5.le_bytes. apply Forall_map. apply Forall_forall. intros k _.
  change 255 with (Z.ones 8). rewrite Z.land_ones by lia.
  apply Z.mod_pos_bound. reflexivity.
Qed.

Lemma Sum_length (msg : list Z) : List.length (md5.Sum msg) = 16%nat.
Proof.
  unfold md5.Sum. cbv zeta.
  rewrite !length_app, !le_bytes_length. reflexivity.
Qed.

Lemma Sum_range (msg : list Z) :
  Forall (fun b => 0 <= b < 256) (md5.Sum msg).
Proof.
  unfold md5.Sum. cbv zeta.
  repeat (apply Forall_app; split); apply le_bytes_range.
Qed.

Lemma hex_digit_isHexDigit (d : Z) :
  0 <= d < 16 -> gostrings.isHexDigit (gofmt.hex_digit d) = true.
Proof.
  intros Hd. unfold gofmt.hex_digit.
  assert (Hn : (Z.to_nat d < 16)%nat) by lia.
  destruct (Z.to_nat d) as [|n]; [reflexivity|].
  do 15 (destruct n as [|n]; [reflexivity|]). lia.
Qed.

Lemma hex_form (bytes : list Z) :
  Forall (fun b => 0 <= b < 256) bytes ->
  String.length (gofmt.hex bytes) = (2 * List.length bytes)%nat
  /\ gostrings.any (fun c => negb (gostrings.isHexDigit c)) (gofmt.hex bytes)
     = false.
Proof.
  induction 1 as [|b bytes Hb _ [IHlen IHhex]]; [split; reflexivity|].
  split.
  - simpl. rewrite IHlen. lia.
  - cbn [gofmt.hex gostrings.any].
    rewrite !hex_digit_isHexDigit, IHhex; [reflexivity| |].
    + apply Z.mod_pos_bound. reflexivity.
    + split; [apply Z.div_pos; lia|apply Z.div_lt_upper_bound; lia].
Qed.

(** X19.  The identity token of a cab event, when the subject decodes,
    is made of 32 lower-case hexadecimal digits, whatever the id. *)
Theorem getHashID_CabEvent_form (t : topics.Manager) (sub : string)
    (issuer : user.Issuer) (token : string) :
  topics.getHashID t topics.CabEvent sub issuer = inl token ->
  String.length token = 32%nat
  /\ gostrings.any
       (fun c => negb (gostrings.contains "0123456789abcdef" c)) token
     = false.
Proof.
  rewrite getHashID_CabEvent.
  destruct (snappids.DecodeHashID _ _ _) as [id|]; [|discriminate].
  intros H. injection H as <-. unfold topics.md5HashID.
  destruct (hex_form _ (Sum_range (gofmt.bytes_of_string
              (topics.EmqCabHashPrefix ++ "-" ++ gofmt.Itoa id)%string)))
    as [Hlen Hhex].
  split; [|exact Hhex].
  rewrite Hlen, Sum_length. reflexivity.
Qed.

End HashForm.

Lemma getHashID_CabEvent_form_witness :
  let m := deployment.manager [deployment.cabEvent] in
  topics.getHashID m topics.CabEvent "d123" user.Driver
  = inl "152384980615c2bd16143cff29038b67"
  /\ String.length "152384980615c2bd16143cff29038b67" = 32.
Proof.
  intros m.
  assert (H : topics.getHashID m topics.CabEvent "d123" user.Driver
              = inl "152384980615c2bd16143cff29038b67")
    by (vm_compute; reflexivity).
  split; [exact H|].
  exact (proj1 (getHashID_CabEvent_form m "d123" user.Driver _ H)).
Defined.

(** ** Topics on which the validation returns *)

(** X20.  The self-topic validation returns a boolean, and does not
    panic, for every topic with four slashes or more, and for every topic
    that is not classified as a node call entry. *)
Theorem ValidateTopicBySender_no_panic (t : topics.Manager) (topic : string)
    (issuer : user.Issuer) (sub : string) :
  4 <= gostrings.Count topic "/"%char
  \/ (forall topicTemplate,
         topics.GetTopicTemplate t topic = Some topicTemplate ->
         topics.Type_ topicTemplate <> topics.NodeCallEntry) ->
  exists b, topics.ValidateTopicBySender t topic issuer sub = Returns b.
Proof.
  intros H. apply ValidateTopicBySender_returns.
  intros topicTemplate Hm. destruct H as [H|H].
  - right. rewrite Split_length. lia.
  - left. exact (H topicTemplate Hm).
Qed.

Lemma ValidateTopicBySender_no_panic_witness :
  exists b,
    topics.ValidateTopicBySender
      (deployment.manager [deployment.nodeCallEntry])
      "snapp/driver/zzz999/call/node7/send" user.Driver "d123" = Returns b.
Proof.
  apply (ValidateTopicBySender_no_panic
           (deployment.manager [deployment.nodeCallEntry])
           "snapp/driver/zzz999/call/node7/send" user.Driver "d123").
  left. vm_compute. lia.
Defined.
